(** * Shallow embedding of the worker orchestration and token ledger of tgbotsaas2

    Sources modelled:
    - src/database/connection.py   (DatabaseManager: token ledger, AI config writes,
                                    subscription verification, bot row deletion)
    - src/services/user_bot/core.py (UserBot: polling loop, stop, cleanup)
    - src/services/user_bot/handlers/channel_handlers.py (quota check, notices,
                                    user AI conversation)
    - src/services/user_bot/handlers/ai_openai_handler.py (owner AI conversation)
    - src/bots/master_bot.py        (bot creation and deletion commands)

    Python values are modelled as follows: ints as [Z], [None]-able columns as
    [option], strings as [String.string]; an [async with get_db_session()] block
    is a function on a working copy of the database whose result is committed
    only when the block reaches [commit] without raising. Timestamps
    ([updated_at]) and log calls are not modelled. *)

From Stdlib Require Import ZArith List Ascii String Bool Lia.
Import ListNotations.
Open Scope string_scope.
Open Scope Z_scope.

(* ================================================================= *)
(** ** Python exceptions and an error monad *)

Inductive exn :=
| DBError                (* any SQLAlchemy / driver error *)
| MultipleResultsFound   (* raised by scalar_one_or_none on two rows *)
| AttributeError
| ValueError
| NetworkError           (* aiogram network / API error *)
| CancelledError
| KeyError.              (* d[k] on a dict without k *)

Inductive py (A : Type) :=
| Ret (a : A)
| Raise (e : exn).
Arguments Ret {A} a.
Arguments Raise {A} e.

Definition py_bind {A B} (m : py A) (k : A -> py B) : py B :=
  match m with Ret a => k a | Raise e => Raise e end.

Notation "x <- m ;; k" := (py_bind m (fun x => k))
  (at level 61, m at next level, right associativity).

(** [except Exception]: every modelled exception except [CancelledError]
    (a BaseException since Python 3.8) is caught. *)
Definition catch_exception {A} (m : py A) (h : exn -> A) : py A :=
  match m with
  | Ret a => Ret a
  | Raise CancelledError => Raise CancelledError
  | Raise e => Ret (h e)
  end.

(** Python truthiness of the values the code tests. *)
Definition truthy_int (x : option Z) : bool :=
  match x with Some n => negb (n =? 0) | None => false end.
Definition truthy_str (x : option string) : bool :=
  match x with Some s => negb (String.eqb s "") | None => false end.

(** [int(x or d)] *)
Definition int_or (x : option Z) (d : Z) : Z :=
  if truthy_int x then match x with Some n => n | None => d end else d.

Definition opt_str_eqb (x : option string) (s : string) : bool :=
  match x with Some t => String.eqb t s | None => false end.

(* ================================================================= *)
(** ** Data model (the UserBot and User tables) *)

(** AI columns of a [UserBot] row. *)
Record AiFields := mkAi {
  ai_assistant_enabled : bool;
  ai_assistant_type : option string;
  openai_agent_id : option string;
  openai_agent_name : option string;
  openai_agent_instructions : option string;
  openai_model : option string;
  external_api_token : option string;
  external_bot_id : option string;
  external_platform : option string
}.

(** Token columns of a [UserBot] row. *)
Record TokenFields := mkTok {
  tokens_used_input : option Z;
  tokens_used_output : option Z;
  tokens_used_total : option Z;
  openai_admin_chat_id : option Z
}.

Record UserBot := mkBot {
  bot_id : string;
  bot_user_id : Z;
  bot_status : string;
  bot_is_running : bool;
  subscription_check_enabled : option bool;
  ai : AiFields;
  tok : TokenFields
}.

Record User := mkUser {
  user_id : Z;
  user_tokens_used_total : option Z;
  tokens_limit_total : option Z
}.

Record DB := mkDB {
  users : list User;
  user_bots : list UserBot
}.

Definition set_tok (b : UserBot) (t : TokenFields) : UserBot :=
  mkBot (bot_id b) (bot_user_id b) (bot_status b) (bot_is_running b)
        (subscription_check_enabled b) (ai b) t.
Definition set_ai (b : UserBot) (a : AiFields) : UserBot :=
  mkBot (bot_id b) (bot_user_id b) (bot_status b) (bot_is_running b)
        (subscription_check_enabled b) a (tok b).
Definition set_status (b : UserBot) (s : string) (r : option bool) : UserBot :=
  mkBot (bot_id b) (bot_user_id b) s
        (match r with Some v => v | None => bot_is_running b end)
        (subscription_check_enabled b) (ai b) (tok b).

(** [update(UserBot).where(UserBot.bot_id == bid).values(...)] *)
Definition update_bots (bid : string) (f : UserBot -> UserBot) (db : DB) : DB :=
  mkDB (users db)
       (map (fun b => if String.eqb (bot_id b) bid then f b else b) (user_bots db)).

(** [update(User).where(User.id == uid).values(tokens_used_total=v)] *)
Definition update_user_used (uid : Z) (v : Z) (db : DB) : DB :=
  mkDB (map (fun u => if user_id u =? uid
                      then mkUser (user_id u) (Some v) (tokens_limit_total u)
                      else u) (users db))
       (user_bots db).

(** [update(User).where(User.id == uid).values(tokens_limit_total=v)] *)
Definition update_user_limit (uid : Z) (v : Z) (db : DB) : DB :=
  mkDB (map (fun u => if user_id u =? uid
                      then mkUser (user_id u) (user_tokens_used_total u) (Some v)
                      else u) (users db))
       (user_bots db).

(** [result.scalar_one_or_none()] *)
Definition scalar_one_or_none {A} (rows : list A) : py (option A) :=
  match rows with
  | [] => Ret None
  | [r] => Ret (Some r)
  | _ => Raise MultipleResultsFound
  end.

Definition select_bot (bid : string) (db : DB) : list UserBot :=
  filter (fun b => String.eqb (bot_id b) bid) (user_bots db).

(** Each [session.execute] raises [DBError] when the database is unreachable;
    [up] says whether it is. Since a session only commits at its end, an
    error at any execute discards all of the block's writes. *)
Definition execute {A} (up : bool) (x : A) : py A :=
  if up then Ret x else Raise DBError.

(** SQL [SUM] ignores NULLs and is NULL on no non-NULL input. *)
Definition sql_sum (xs : list (option Z)) : option Z :=
  fold_left (fun acc x => match x with
                          | None => acc
                          | Some n => Some (match acc with Some a => a + n | None => n end)
                          end) xs None.

(* ================================================================= *)
(** ** Token ledger: [DatabaseManager.save_token_usage] *)

(** The filter of the owner-total query: [UserBot.user_id == owner,
    UserBot.ai_assistant_type == 'openai', UserBot.openai_agent_id.isnot(None)]. *)
Definition metered_openai (owner : Z) (b : UserBot) : bool :=
  (bot_user_id b =? owner)
  && opt_str_eqb (ai_assistant_type (ai b)) "openai"
  && match openai_agent_id (ai b) with Some _ => true | None => false end.

Definition owner_sum_query (owner : Z) (db : DB) : option Z :=
  sql_sum (map (fun b => tokens_used_total (tok b))
               (filter (metered_openai owner) (user_bots db))).

(** The new token columns written for the charged bot. *)
Definition charged_tokens (b : UserBot) (input_tokens output_tokens : Z)
    (admin_chat_id : option Z) : TokenFields :=
  let current_input := int_or (tokens_used_input (tok b)) 0 in
  let current_output := int_or (tokens_used_output (tok b)) 0 in
  let current_total := int_or (tokens_used_total (tok b)) 0 in
  mkTok (Some (current_input + input_tokens))
        (Some (current_output + output_tokens))
        (Some (current_total + input_tokens + output_tokens))
        (if truthy_int admin_chat_id && negb (truthy_int (openai_admin_chat_id (tok b)))
         then admin_chat_id else openai_admin_chat_id (tok b)).

(** Body of the [async with get_db_session()] block: returns the Python
    return value and the working copy to commit. *)
Definition save_token_usage_session (up : bool) (db : DB) (bid : string)
    (input_tokens output_tokens : Z) (admin_chat_id : option Z) : py (bool * DB) :=
  rows <- execute up (select_bot bid db) ;;
  found <- scalar_one_or_none rows ;;
  match found with
  | None => Ret (false, db)
  | Some bot =>
      let nt := charged_tokens bot input_tokens output_tokens admin_chat_id in
      db1 <- execute up (update_bots bid (fun b => set_tok b nt) db) ;;
      s <- execute up (owner_sum_query (bot_user_id bot) db1) ;;
      let user_total_tokens := int_or s 0 in
      db2 <- execute up (update_user_used (bot_user_id bot) user_total_tokens db1) ;;
      _ <- execute up tt ;;  (* session.commit() *)
      Ret (true, db2)
  end.

(** [save_token_usage]: the [except Exception] returns [False] and nothing
    of the block is committed. *)
Definition save_token_usage (up : bool) (db : DB) (bid : string)
    (input_tokens output_tokens : Z) (admin_chat_id : option Z) : py (bool * DB) :=
  catch_exception (save_token_usage_session up db bid input_tokens output_tokens admin_chat_id)
                  (fun _ => (false, db)).

(* ================================================================= *)
(** ** Quota check: [DatabaseManager.check_token_limit] *)

Definition select_user (uid : Z) (db : DB) : list User :=
  filter (fun u => user_id u =? uid) (users db).

Definition check_token_limit_session (up : bool) (db : DB) (uid : Z) : py (bool * Z * Z) :=
  rows <- execute up (select_user uid db) ;;
  match rows with               (* result.first() *)
  | [] => Ret (false, 0, 500000)
  | data :: _ =>
      let total_used := int_or (user_tokens_used_total data) 0 in
      let tokens_limit := int_or (tokens_limit_total data) 500000 in
      let has_tokens := total_used <? tokens_limit in
      Ret (has_tokens, total_used, tokens_limit)
  end.

Definition check_token_limit (up : bool) (db : DB) (uid : Z) : py (bool * Z * Z) :=
  catch_exception (check_token_limit_session up db uid) (fun _ => (false, 0, 500000)).

(** Sum over the owner's bots that the owner-total query selects, NULL as 0. *)
Definition metered_sum (owner : Z) (db : DB) : Z :=
  fold_right Z.add 0 (map (fun b => int_or (tokens_used_total (tok b)) 0)
                          (filter (metered_openai owner) (user_bots db))).

(** Reading of the ledger invariant by the words of the spec: the sum over
    all of the owner's bots whose agent type is ['openai']. *)
Definition owner_openai_sum_spec (owner : Z) (db : DB) : Z :=
  fold_right Z.add 0
    (map (fun b => int_or (tokens_used_total (tok b)) 0)
         (filter (fun b => (bot_user_id b =? owner)
                           && opt_str_eqb (ai_assistant_type (ai b)) "openai")
                 (user_bots db))).

(** The ledger invariant of the spec, after a successful charge of [bid]. *)
Definition charge_sync_spec (up : bool) (db : DB) (bid : string)
    (input_tokens output_tokens : Z) (admin_chat_id : option Z) : Prop :=
  forall db', save_token_usage up db bid input_tokens output_tokens admin_chat_id = Ret (true, db') ->
  forall bot, In bot (select_bot bid db) ->
  forall u, In u (users db') -> user_id u = bot_user_id bot ->
  user_tokens_used_total u = Some (owner_openai_sum_spec (bot_user_id bot) db').

(* ================================================================= *)
(** ** Worker runtime: [UserBot] in src/services/user_bot/core.py *)

(** Outcome of one [await self.dp.start_polling(...)]. *)
Inductive poll_outcome :=
| PollReturns      (* polling ended normally: [break] *)
| PollCancelled    (* asyncio.CancelledError: [break] *)
| PollFails.       (* any other exception *)

(** State of [self.polling_task]. *)
Inductive task_state :=
| TaskPending                (* the coroutine is still running *)
| TaskDone (r : py unit).    (* finished, normally or with an exception *)

(** Observable effects of the runtime. *)
Inductive event :=
| EvPollAttempt                      (* logger "Starting polling" + start_polling *)
| EvSleep (seconds : Z)              (* await asyncio.sleep(seconds) *)
| EvStatusWrite (status : string) (is_running : bool)  (* database.update_bot_status *)
| EvCancel                           (* self.polling_task.cancel() *)
| EvSessionClose                     (* await self.bot.session.close() *)
| EvGetMe.                           (* await self.bot.get_me() *)

(** The fields of a [UserBot] instance the lifecycle touches. *)
Record RT := mkRT {
  rt_bot_id : string;
  rt_bot_username : string;
  rt_bot : bool;                    (* self.bot is not None *)
  rt_dp : bool;                     (* self.dp is not None *)
  rt_polling_task : option task_state;
  rt_is_running : bool;
  rt_error_count : nat
}.

Definition rt_set_running (s : RT) (v : bool) : RT :=
  mkRT (rt_bot_id s) (rt_bot_username s) (rt_bot s) (rt_dp s) (rt_polling_task s) v (rt_error_count s).
Definition rt_incr_errors (s : RT) : RT :=
  mkRT (rt_bot_id s) (rt_bot_username s) (rt_bot s) (rt_dp s) (rt_polling_task s)
       (rt_is_running s) (S (rt_error_count s)).

Definition rt_set_task (s : RT) (t : option task_state) : RT :=
  mkRT (rt_bot_id s) (rt_bot_username s) (rt_bot s) (rt_dp s) t (rt_is_running s) (rt_error_count s).

(** [UserBot.__init__]: no bot, no dispatcher, no task, not running,
    [error_count = 0]. *)
Definition user_bot_init (bid username : string) : RT :=
  mkRT bid username false false None false 0.

(** [DatabaseManager.update_bot_status]: not wrapped in try/except. *)
Definition update_bot_status (up : bool) (bid : string) (status : string)
    (is_running : option bool) (db : DB) : py DB :=
  execute up (update_bots bid (fun b => set_status b status is_running) db).

Definition max_retries : nat := 5.

(** [UserBot._start_polling] from its [while] test on, with [retry_count]
    the local counter; [outs] are the outcomes of the successive
    [start_polling] calls (when they run out the call is still blocked).
    An exception of [update_bot_status] leaves the task with that
    exception. *)
Fixpoint polling_loop (up : bool) (outs : list poll_outcome) (retry_count : nat)
    (s : RT) (db : DB) : RT * py DB * list event :=
  if rt_is_running s && Nat.ltb retry_count max_retries then
    match outs with
    | [] => (s, Ret db, [EvPollAttempt])
    | PollReturns :: _ => (s, Ret db, [EvPollAttempt])
    | PollCancelled :: _ => (s, Ret db, [EvPollAttempt])
    | PollFails :: outs' =>
        let retry_count' := S retry_count in
        let s1 := rt_incr_errors s in
        if Nat.ltb retry_count' max_retries then
          let '(s2, r, evs) := polling_loop up outs' retry_count' s1 db in
          (s2, r, EvPollAttempt :: EvSleep (Z.min (Z.of_nat retry_count' * 5) 30) :: evs)
        else
          let s2 := rt_set_running s1 false in
          match update_bot_status up (rt_bot_id s) "error" (Some false) db with
          | Ret db' =>
              (* back at the [while] test: [is_running] is now false *)
              (s2, Ret db', [EvPollAttempt; EvStatusWrite "error" false])
          | Raise e => (s2, Raise e, [EvPollAttempt; EvStatusWrite "error" false])
          end
    end
  else (s, Ret db, []).

Definition start_polling (up : bool) (outs : list poll_outcome) (s : RT) (db : DB)
    : RT * py DB * list event :=
  polling_loop up outs 0 s db.

(** The loop as the spec words it: on a failure [error_count] is incremented
    and the sleep is [min(error_count * 5, 30)]; the ceiling of 5 is on
    [error_count]; reaching it persists [status="error", is_running=false]. *)
Fixpoint polling_loop_spec (up : bool) (outs : list poll_outcome) (s : RT) (db : DB)
    : RT * py DB * list event :=
  if rt_is_running s && Nat.ltb (rt_error_count s) max_retries then
    match outs with
    | [] | PollReturns :: _ | PollCancelled :: _ => (s, Ret db, [EvPollAttempt])
    | PollFails :: outs' =>
        let s1 := rt_incr_errors s in
        if Nat.ltb (rt_error_count s1) max_retries then
          let '(s2, r, evs) := polling_loop_spec up outs' s1 db in
          (s2, r, EvPollAttempt
                    :: EvSleep (Z.min (Z.of_nat (rt_error_count s1) * 5) 30) :: evs)
        else
          let s2 := rt_set_running s1 false in
          match update_bot_status up (rt_bot_id s) "error" (Some false) db with
          | Ret db' => (s2, Ret db', [EvPollAttempt; EvStatusWrite "error" false])
          | Raise e => (s2, Raise e, [EvPollAttempt; EvStatusWrite "error" false])
          end
    end
  else (s, Ret db, []).

(** [UserBot._cleanup]: a failing [session.close()] is logged and ignored, so
    both outcomes give the same state. *)
Definition cleanup (s : RT) : RT * list event :=
  (mkRT (rt_bot_id s) (rt_bot_username s) false false None
        (rt_is_running s) (rt_error_count s),
   if rt_bot s then [EvSessionClose] else []).

(** [await self.polling_task] after [cancel()]: a pending task is cancelled
    (the loop breaks on CancelledError, or the task ends cancelled); a done
    task gives back its result. *)
Definition await_cancelled (t : task_state) : py unit :=
  match t with
  | TaskPending => Ret tt
  | TaskDone r => r
  end.

(** [UserBot.stop]: the instance after the call, the call's outcome and the
    events. Only [asyncio.CancelledError] is caught around the await; any
    other exception of the task propagates out of [stop] before [_cleanup],
    leaving [is_running = False] and bot, dispatcher and task in place
    ([cancel()] on a finished task does nothing). *)
Definition stop (s : RT) : RT * py unit * list event :=
  let s1 := rt_set_running s false in
  match rt_polling_task s1 with
  | Some t =>
      match await_cancelled t with
      | Ret _ | Raise CancelledError =>
          let '(s2, evs) := cleanup s1 in (s2, Ret tt, EvCancel :: evs)
      | Raise e => (s1, Raise e, [EvCancel])
      end
  | None => let '(s2, evs) := cleanup s1 in (s2, Ret tt, evs)
  end.

(** [UserBot.start]; [get_me] is [Some username] when the gateway answers,
    [None] when the call raises. A failure cleans up and re-raises. Handler
    registration is taken to succeed and [_initialize_funnel] swallows its
    own errors. *)
Definition start (s : RT) (get_me : option string) : py RT * list event :=
  let s1 := mkRT (rt_bot_id s) (rt_bot_username s) true (rt_dp s) (rt_polling_task s)
                 (rt_is_running s) (rt_error_count s) in
  let fail e := let '(s2, evs) := cleanup s1 in (@Raise RT e, EvGetMe :: evs) in
  match get_me with
  | None => fail NetworkError
  | Some u =>
      if String.eqb u (rt_bot_username s) then
        (Ret (mkRT (rt_bot_id s) (rt_bot_username s) true true (Some TaskPending)
                   true (rt_error_count s)), [EvGetMe])
      else fail ValueError   (* "Bot username mismatch" *)
  end.

(** Modelled from the spec: [BotManager.restart_bot] (the orchestrator in
    services/bot_manager.py is not in src/). "restart: stop current loop (if
    any), re-read configuration with Fresh mode, re-enter Starting", with
    [error_count] reset to 0: the old instance is stopped and a new [UserBot]
    built from the freshly read configuration is started. *)
Definition restart_bot (old : RT) (fresh_bot_id fresh_username : string)
    (get_me : option string) : py RT * list event :=
  match stop old with
  | (_, Ret _, evs) =>
      let '(r, evs') := start (user_bot_init fresh_bot_id fresh_username) get_me in
      (r, (evs ++ evs')%list)
  | (_, Raise e, evs) => (Raise e, evs)
  end.

(* ================================================================= *)
(** ** AI configuration write: [DatabaseManager.update_ai_assistant] *)

(** The keys of the [settings] dict that the function reads for the modelled
    columns; [None] is an absent key. ([openai_settings], [creation_method]
    and [store_conversations] go to columns not modelled.) *)
Record Settings := mkSettings {
  s_agent_type : option string;
  s_agent_name : option string;
  s_agent_role : option string;
  s_system_prompt : option string;
  s_model : option string;
  s_platform : option string;
  s_bot_id_value : option string;
  s_admin_chat_id : option Z
}.

Definition settings_nonempty (st : Settings) : bool :=
  match st with
  | mkSettings None None None None None None None None => false
  | _ => true
  end.

(** Truthiness of the [settings] argument ([None] or [{}] are false). *)
Definition truthy_settings (st : option Settings) : bool :=
  match st with Some x => settings_nonempty x | None => false end.

(** [a or b] on optional strings. *)
Definition str_or (a b : option string) : option string :=
  if truthy_str a then a else b.

(** [d.get(k, default)] *)
Definition get_default (x : option string) (d : string) : option string :=
  match x with Some v => Some v | None => Some d end.

(** The [update_data] dict built by [update_ai_assistant], as a function on
    the row (the [values(...)] of the UPDATE); [Raise] when building it raises
    ([settings.get] on [None]). *)
Definition ai_update_data (enabled : bool) (assistant_id : option string)
    (settings : option Settings) : py (UserBot -> UserBot) :=
  let with_enabled (a : AiFields) :=
    mkAi enabled (ai_assistant_type a) (openai_agent_id a) (openai_agent_name a)
         (openai_agent_instructions a) (openai_model a) (external_api_token a)
         (external_bot_id a) (external_platform a) in
  if truthy_str assistant_id then
    match settings with
    | Some st =>
        if settings_nonempty st && opt_str_eqb (s_agent_type st) "openai" then
          Ret (fun b =>
                 let a := ai b in
                 let t := tok b in
                 set_tok
                   (set_ai b
                      (mkAi enabled (Some "openai") assistant_id (s_agent_name st)
                            (str_or (s_agent_role st) (s_system_prompt st))
                            (get_default (s_model st) "gpt-4o")
                            (external_api_token a) (external_bot_id a) (external_platform a)))
                   (* 'openai_admin_chat_id': settings.get('admin_chat_id') *)
                   (mkTok (tokens_used_input t) (tokens_used_output t)
                          (tokens_used_total t) (s_admin_chat_id st)))
        else
          let platform := get_default (s_platform st) "chatforyou" in
          Ret (fun b =>
                 let a := ai b in
                 set_ai b
                   (mkAi enabled platform (openai_agent_id a) (openai_agent_name a)
                         (openai_agent_instructions a) (openai_model a)
                         assistant_id (s_bot_id_value st) platform))
    | None => Raise AttributeError     (* None.get('platform', ...) *)
    end
  else
    match settings with
    | Some st =>
        if settings_nonempty st then
          let agent_type := s_agent_type st in
          Ret (fun b =>
                 let a1 := with_enabled (ai b) in
                 let ty := if truthy_str agent_type then agent_type else ai_assistant_type a1 in
                 set_ai b
                   (if opt_str_eqb agent_type "openai" then
                      mkAi enabled ty (openai_agent_id a1)
                           (match s_agent_name st with Some v => Some v | None => openai_agent_name a1 end)
                           (match s_agent_role st with Some v => Some v | None => openai_agent_instructions a1 end)
                           (openai_model a1) (external_api_token a1) (external_bot_id a1)
                           (external_platform a1)
                    else
                      mkAi enabled ty (openai_agent_id a1) (openai_agent_name a1)
                           (openai_agent_instructions a1) (openai_model a1)
                           (external_api_token a1) (external_bot_id a1) (external_platform a1)))
        else Ret (fun b => set_ai b (with_enabled (ai b)))
    | None => Ret (fun b => set_ai b (with_enabled (ai b)))
    end.

Definition update_ai_assistant_session (up : bool) (db : DB) (bid : string)
    (enabled : bool) (assistant_id : option string) (settings : option Settings)
    : py (bool * DB) :=
  patch <- ai_update_data enabled assistant_id settings ;;
  db1 <- execute up (update_bots bid patch db) ;;
  _ <- execute up tt ;;  (* session.commit() *)
  Ret (true, db1).

Definition update_ai_assistant (up : bool) (db : DB) (bid : string)
    (enabled : bool) (assistant_id : option string) (settings : option Settings)
    : py (bool * DB) :=
  catch_exception (update_ai_assistant_session up db bid enabled assistant_id settings)
                  (fun _ => (false, db)).

(** The invariant of the spec on a row: AI enabled implies a non-empty agent
    type and a non-empty agent handle (the OpenAI agent id for 'openai', the
    external API token otherwise). *)
Definition ai_config_valid (a : AiFields) : bool :=
  negb (ai_assistant_enabled a)
  || (truthy_str (ai_assistant_type a)
      && (if opt_str_eqb (ai_assistant_type a) "openai"
          then truthy_str (openai_agent_id a)
          else truthy_str (external_api_token a))).

Definition db_ai_valid (db : DB) : Prop :=
  forall b, In b (user_bots db) -> ai_config_valid (ai b) = true.

(** The claim: a write from a valid store never commits an invalid row. *)
Definition ai_write_validates (up : bool) (db : DB) (bid : string) (enabled : bool)
    (assistant_id : option string) (settings : option Settings) : Prop :=
  db_ai_valid db ->
  forall ok db', update_ai_assistant up db bid enabled assistant_id settings = Ret (ok, db') ->
  db_ai_valid db'.

(* ================================================================= *)
(** ** Control plane: bot creation and deletion, the subscription toggle *)

(** Observable steps of a control-plane command. *)
Inductive ctl_event :=
| CWrite                (* a committed Configuration Store write *)
| CVerify (ok : bool)   (* verify_update_success and its answer *)
| CAddBot               (* bot_manager.add_bot *)
| CRemoveBot            (* bot_manager.remove_bot *)
| CDeleteRow            (* the row deleted by delete_user_bot *)
| CReportSuccess        (* success message to the administrator *)
| CReportFailure.       (* error message to the administrator *)

(** [DatabaseManager.get_subscription_status_no_cache]: one raw-SQL read of
    [subscription_check_enabled] ([result.first()], [bool(None)] is false);
    a missing row or any error gives [False]. *)
Definition get_subscription_status_no_cache (up : bool) (db : DB) (bid : string) : bool :=
  if up then
    match select_bot bid db with
    | b :: _ => match subscription_check_enabled b with Some v => v | None => false end
    | [] => false
    end
  else false.

(** [DatabaseManager.verify_update_success]: [asyncio.sleep(0.1)], then a
    single read compared with the expected value. *)
Definition verify_update_success (up : bool) (db : DB) (bid : string) (expected : bool) : bool :=
  Bool.eqb (get_subscription_status_no_cache up db bid) expected.

(** [DatabaseManager.update_subscription_settings(bot_id, enabled=...)]:
    returns ['success'] and the database after the attempt. *)
Definition update_subscription_enabled (up : bool) (db : DB) (bid : string) (enabled : bool)
    : bool * DB :=
  if up then
    (true, update_bots bid (fun b =>
              mkBot (bot_id b) (bot_user_id b) (bot_status b) (bot_is_running b)
                    (Some enabled) (ai b) (tok b)) db)
  else (false, db).

(** [AdminHandlers.cb_toggle_subscription] (owner path). *)
Definition cb_toggle_subscription (is_owner : bool) (up : bool) (db : DB) (bid : string)
    : DB * list ctl_event :=
  if negb is_owner then (db, [CReportFailure]) else
  let current_enabled := get_subscription_status_no_cache up db bid in
  let new_enabled := negb current_enabled in
  let '(ok, db1) := update_subscription_enabled up db bid new_enabled in
  if negb ok then (db1, [CReportFailure]) else
  let verified := verify_update_success up db1 bid new_enabled in
  if negb verified then (db1, [CWrite; CVerify false; CReportFailure])
  else (db1, [CWrite; CVerify true; CReportSuccess]).

(** The row [create_user_bot] inserts for a new bot. *)
Definition new_bot_row (bid : string) (owner : Z) : UserBot :=
  mkBot bid owner "active" true None
        (mkAi false None None None None None None None None)
        (mkTok None None None None).

(** [MasterBot.handle_token_input]: [valid_format] is [_validate_token],
    [token_ok] whether [_verify_token] returned bot info, [has_manager]
    whether [self.bot_manager] is set. The [add_bot] call is wrapped in
    try/except, so its outcome does not change the rest of the handler. *)
Definition handle_token_input (valid_format token_ok has_manager : bool) (up : bool)
    (db : DB) (bid : string) (owner : Z) : DB * list ctl_event :=
  if negb valid_format then (db, [CReportFailure]) else
  if negb token_ok then (db, [CReportFailure]) else
  if negb up then (db, [CReportFailure]) else   (* create_user_bot raises *)
  let db1 := mkDB (users db) (user_bots db ++ [new_bot_row bid owner])%list in
  if has_manager then (db1, [CWrite; CAddBot; CReportSuccess])
  else (db1, [CWrite; CReportSuccess]).

(** [delete(UserBot).where(UserBot.bot_id == bid)] *)
Definition delete_rows (bid : string) (db : DB) : DB :=
  mkDB (users db) (filter (fun b => negb (String.eqb (bot_id b) bid)) (user_bots db)).

(** [MasterBot._confirm_delete_bot]: [caller] is [callback.from_user.id].
    The [remove_bot] call is wrapped in try/except that only logs, so its
    outcome does not change the rest of the handler; a failing database call
    lands in the outer except. *)
Definition confirm_delete_bot (has_manager : bool) (up : bool)
    (db : DB) (bid : string) (caller : Z) : DB * list ctl_event :=
  if negb up then (db, [CReportFailure]) else   (* get_bot_by_id raises *)
  match select_bot bid db with
  | [] => (db, [CReportFailure])
  | bot :: _ =>
      if negb (bot_user_id bot =? caller) then (db, [CReportFailure]) else
      let pre := if has_manager then [CRemoveBot] else [] in
      (delete_rows bid db, (pre ++ [CDeleteRow; CReportSuccess])%list)
  end.

(** Write-then-verify as the spec words it: every orchestrator signal and
    every success report comes after a successful verify. *)
Definition signals_after_verify (tr : list ctl_event) : Prop :=
  forall pre e post, tr = (pre ++ e :: post)%list ->
  (e = CAddBot \/ e = CRemoveBot \/ e = CReportSuccess) -> In (CVerify true) pre.

(** Executable checks of the two orderings. *)
Definition is_signal (e : ctl_event) : bool :=
  match e with CAddBot | CRemoveBot | CReportSuccess => true | _ => false end.

Fixpoint signals_after_verify_b (seen : bool) (tr : list ctl_event) : bool :=
  match tr with
  | [] => true
  | e :: tr' =>
      (seen || negb (is_signal e))
      && signals_after_verify_b (seen || match e with CVerify true => true | _ => false end) tr'
  end.

Fixpoint delete_after_stop_b (seen : bool) (tr : list ctl_event) : bool :=
  match tr with
  | [] => true
  | e :: tr' =>
      (seen || match e with CDeleteRow => false | _ => true end)
      && delete_after_stop_b (seen || match e with CRemoveBot => true | _ => false end) tr'
  end.

(** Stop-before-delete as the spec words it. *)
Definition delete_after_stop (tr : list ctl_event) : Prop :=
  forall pre post, tr = (pre ++ CDeleteRow :: post)%list -> In CRemoveBot pre.

(* ================================================================= *)
(** ** AI config read, token balance, quota check and notices *)

(** [DatabaseManager.get_ai_config], reduced to the keys the handlers read:
    the agent type and, for 'openai', the agent id. Not wrapped in
    try/except. *)
Definition get_ai_config (up : bool) (db : DB) (bid : string)
    : py (option (string * option string)) :=
  rows <- execute up (select_bot bid db) ;;
  found <- scalar_one_or_none rows ;;
  match found with
  | None => Ret None
  | Some bot =>
      let a := ai bot in
      if negb (ai_assistant_enabled a) then Ret None
      else if opt_str_eqb (ai_assistant_type a) "openai" then
        if truthy_str (openai_agent_id a) then Ret (Some ("openai", openai_agent_id a))
        else Ret None
      else if opt_str_eqb (ai_assistant_type a) "chatforyou"
              || opt_str_eqb (ai_assistant_type a) "protalk" then
        if truthy_str (external_api_token a)
        then Ret (Some (match ai_assistant_type a with Some t => t | None => "" end,
                        None))
        else Ret None
      else Ret None
  end.

(** A Python dict with int values, as an association list. *)
Definition pydict := list (string * Z).

Definition dict_get (d : pydict) (k : string) : option Z :=
  match find (fun kv => String.eqb (fst kv) k) d with
  | Some (_, v) => Some v
  | None => None
  end.

Definition dict_get_default (d : pydict) (k : string) (dflt : Z) : Z :=
  match dict_get d k with Some v => v | None => dflt end.

(** [DatabaseManager.get_user_token_balance]: the dict has exactly the keys
    ['limit'], ['total_used'] and ['remaining']. *)
Definition get_user_token_balance (up : bool) (db : DB) (uid : Z) : option pydict :=
  if up then
    match select_user uid db with
    | [] => None
    | data :: _ =>
        let lim := int_or (tokens_limit_total data) 500000 in
        let used := int_or (user_tokens_used_total data) 0 in
        Some [("limit", lim); ("total_used", used); ("remaining", lim - used)]
    end
  else None.

(** Notices leaving the worker. *)
Inductive notice :=
| NExhausted (chat : Z)     (* bot.send_message of the hard-stop notice *)
| NWarning (chat : Z)       (* bot.send_message of the 90% warning *)
| NSetFlag (name : string). (* db.set_token_*_sent(owner, True) *)

(** [_send_token_exhausted_notification(token_info)]; [has_bot] is
    [self.bot is not None]. *)
Definition send_token_exhausted_notification (has_bot : bool) (token_info : pydict)
    : list notice :=
  if truthy_int (dict_get token_info "notification_sent") then [] else
  match dict_get token_info "admin_chat_id" with
  | Some chat =>
      if negb (chat =? 0) && has_bot
      then [NExhausted chat; NSetFlag "notification_sent"] else []
  | None => []
  end.

(** [_send_token_warning_notification(token_info)] *)
Definition send_token_warning_notification (has_bot : bool) (token_info : pydict)
    : list notice :=
  match dict_get token_info "admin_chat_id" with
  | Some chat =>
      if negb (chat =? 0) && has_bot
      then [NWarning chat; NSetFlag "warning_sent"] else []
  | None => []
  end.

(** [ChannelHandlers._check_openai_token_limit]: the allowed flag and the
    notices sent. The 90% test [tokens_used >= tokens_limit * 0.9] is taken
    on integers as [10 * used >= 9 * limit]. Exceptions (of [get_ai_config])
    give [(False, ...)]. *)
Definition check_openai_token_limit (has_bot up : bool) (db : DB) (bid : string)
    (owner : Z) : bool * list notice :=
  match get_ai_config up db bid with
  | Raise _ => (false, [])
  | Ret None => (true, [])
  | Ret (Some (ty, _)) =>
      if negb (String.eqb ty "openai") then (true, []) else
      match get_user_token_balance up db owner with
      | None => (false, [])
      | Some token_info =>
          let tokens_used := dict_get_default token_info "total_used" 0 in
          let tokens_limit := dict_get_default token_info "limit" 500000 in
          let remaining_tokens := tokens_limit - tokens_used in
          if remaining_tokens <=? 0 then
            (false, send_token_exhausted_notification has_bot token_info)
          else if (9 * tokens_limit <=? 10 * tokens_used)
                  && negb (truthy_int (dict_get token_info "warning_sent")) then
            (true, send_token_warning_notification has_bot token_info)
          else (true, [])
      end
  end.

(* ================================================================= *)
(** ** AI conversations *)









(* ================================================================= *)
(** ** More of [DatabaseManager]: quota writes, AI maintenance, users *)

(** [DatabaseManager.update_user_tokens_limit]: [success] is
    [result.rowcount > 0]; the update is committed even when it matched no
    row. *)
Definition update_user_tokens_limit_session (up : bool) (db : DB) (uid new_limit : Z)
    : py (bool * DB) :=
  rowcount <- execute up (List.length (select_user uid db)) ;;
  let db1 := update_user_limit uid new_limit db in
  _ <- execute up tt ;;  (* session.commit() *)
  Ret (Nat.ltb 0 rowcount, db1).

Definition update_user_tokens_limit (up : bool) (db : DB) (uid new_limit : Z) : py (bool * DB) :=
  catch_exception (update_user_tokens_limit_session up db uid new_limit) (fun _ => (false, db)).

(** The AI columns written by [clear_ai_configuration]. ([openai_settings],
    [openai_use_responses_api], [openai_store_conversations] and
    [external_settings] are columns not modelled.) *)
Definition ai_cleared : AiFields :=
  mkAi false None None None None None None None None.

(** The row after [clear_ai_configuration]: the AI columns cleared and
    [openai_admin_chat_id] set to NULL; the usage counters are not in the
    [values(...)] and keep their values. *)
Definition clear_ai_row (b : UserBot) : UserBot :=
  mkBot (bot_id b) (bot_user_id b) (bot_status b) (bot_is_running b)
        (subscription_check_enabled b) ai_cleared
        (mkTok (tokens_used_input (tok b)) (tokens_used_output (tok b))
               (tokens_used_total (tok b)) None).

Definition clear_ai_configuration_session (up : bool) (db : DB) (bid : string)
    : py (bool * DB) :=
  db1 <- execute up (update_bots bid clear_ai_row db) ;;
  _ <- execute up tt ;;  (* session.commit() *)
  Ret (true, db1).

(** [DatabaseManager.clear_ai_configuration] *)
Definition clear_ai_configuration (up : bool) (db : DB) (bid : string) : py (bool * DB) :=
  catch_exception (clear_ai_configuration_session up db bid) (fun _ => (false, db)).

(** [DatabaseManager.delete_openai_agent]: an alias. *)
Definition delete_openai_agent (up : bool) (db : DB) (bid : string) : py (bool * DB) :=
  clear_ai_configuration up db bid.

(** The entries of the [issues] list of [validate_agent_data_consistency]. *)
Inductive agent_issue :=
| OpenaiEnabledButNoAgentId      (* 'openai_enabled_but_no_agent_id' *)
| OpenaiAgentExistsButDisabled   (* 'openai_agent_exists_but_disabled' *)
| ExternalEnabledButNoToken.     (* 'external_enabled_but_no_token' *)

Definition agent_issue_eqb (x y : agent_issue) : bool :=
  match x, y with
  | OpenaiEnabledButNoAgentId, OpenaiEnabledButNoAgentId
  | OpenaiAgentExistsButDisabled, OpenaiAgentExistsButDisabled
  | ExternalEnabledButNoToken, ExternalEnabledButNoToken => true
  | _, _ => false
  end.

(** [bot.ai_assistant_type in ['chatforyou', 'protalk']] *)
Definition is_external_type (t : option string) : bool :=
  opt_str_eqb t "chatforyou" || opt_str_eqb t "protalk".

(** The [issues] found for a row, in the order the code appends them. *)
Definition agent_issues (a : AiFields) : list agent_issue :=
  ((if opt_str_eqb (ai_assistant_type a) "openai" then
      ((if ai_assistant_enabled a && negb (truthy_str (openai_agent_id a))
        then [OpenaiEnabledButNoAgentId] else []) ++
       (if truthy_str (openai_agent_id a) && negb (ai_assistant_enabled a)
        then [OpenaiAgentExistsButDisabled] else []))
    else []) ++
   (if is_external_type (ai_assistant_type a) then
      if ai_assistant_enabled a && negb (truthy_str (external_api_token a))
      then [ExternalEnabledButNoToken] else []
    else []))%list.

(** [DatabaseManager.validate_agent_data_consistency]: [None] is the
    [{'status': 'bot_not_found'}] answer, [Some issues] the validation dict
    (its [overall_status] is ['inconsistent'] exactly when [issues] is
    non-empty). Not wrapped in try/except. *)
Definition validate_agent_data_consistency (up : bool) (db : DB) (bid : string)
    : py (option (list agent_issue)) :=
  rows <- execute up (select_bot bid db) ;;
  found <- scalar_one_or_none rows ;;
  match found with
  | None => Ret None
  | Some bot => Ret (Some (agent_issues (ai bot)))
  end.

(** [values(ai_assistant_enabled=v)] *)
Definition set_enabled (v : bool) (b : UserBot) : UserBot :=
  let a := ai b in
  set_ai b (mkAi v (ai_assistant_type a) (openai_agent_id a) (openai_agent_name a)
                 (openai_agent_instructions a) (openai_model a) (external_api_token a)
                 (external_bot_id a) (external_platform a)).

(** Body of [DatabaseManager.sync_agent_data_fields]. A validation without
    the row ([{'status': 'bot_not_found'}]) has no ['overall_status'] key. *)
Definition sync_agent_data_fields_body (up : bool) (db : DB) (bid : string) : py (bool * DB) :=
  rows <- execute up (select_bot bid db) ;;     (* get_bot_by_id(bot_id, fresh=True) *)
  fresh_bot <- scalar_one_or_none rows ;;
  match fresh_bot with
  | None => Ret (false, db)
  | Some _ =>
      validation <- validate_agent_data_consistency up db bid ;;
      match validation with
      | None => Raise KeyError
      | Some [] => Ret (true, db)                (* 'consistent' *)
      | Some issues =>
          db1 <- (if existsb (agent_issue_eqb OpenaiAgentExistsButDisabled) issues
                  then execute up (update_bots bid (set_enabled true) db) else Ret db) ;;
          db2 <- (if existsb (agent_issue_eqb OpenaiEnabledButNoAgentId) issues
                  then execute up (update_bots bid (set_enabled false) db1) else Ret db1) ;;
          _ <- execute up tt ;;  (* session.commit() *)
          Ret (true, db2)
      end
  end.

Definition sync_agent_data_fields (up : bool) (db : DB) (bid : string) : py (bool * DB) :=
  catch_exception (sync_agent_data_fields_body up db bid) (fun _ => (false, db)).

(** The [status] that [diagnose_ai_config] computes for a found row. *)
Definition diagnose_status (a : AiFields) : string :=
  if ai_assistant_enabled a && negb (truthy_str (ai_assistant_type a)) then "misconfigured"
  else if opt_str_eqb (ai_assistant_type a) "openai" then
    if negb (truthy_str (openai_agent_id a)) then "incomplete"
    else if negb (ai_assistant_enabled a) then "disabled"
    else "configured"
  else if is_external_type (ai_assistant_type a) then
    if negb (truthy_str (external_api_token a)) then "incomplete"
    else if negb (ai_assistant_enabled a) then "disabled"
    else "configured"
  else "not_configured".

(** [DatabaseManager.diagnose_ai_config], reduced to [status] and
    [config_result] ([None] when the bot is not found: that dict has no
    [config_result]). *)
Definition diagnose_ai_config (up : bool) (db : DB) (bid : string)
    : py (string * option string) :=
  rows <- execute up (select_bot bid db) ;;
  found <- scalar_one_or_none rows ;;
  match found with
  | None => Ret ("bot_not_found", None)
  | Some bot =>
      config_result <- catch_exception
                         (config <- get_ai_config up db bid ;;
                          Ret (match config with Some _ => "success" | None => "failed" end))
                         (fun _ => "error") ;;
      Ret (diagnose_status (ai bot), Some config_result)
  end.

(** [DatabaseManager.get_openai_agent_info], reduced to the keys
    ['agent_id'] and ['enabled']. Not wrapped in try/except. *)
Definition get_openai_agent_info (up : bool) (db : DB) (bid : string)
    : py (option (option string * bool)) :=
  rows <- execute up (select_bot bid db) ;;
  found <- scalar_one_or_none rows ;;
  match found with
  | None => Ret None
  | Some bot =>
      let a := ai bot in
      if negb (opt_str_eqb (ai_assistant_type a) "openai") || negb (truthy_str (openai_agent_id a))
      then Ret None
      else Ret (Some (openai_agent_id a, ai_assistant_enabled a))
  end.

(** The [user_data] dict of [create_or_update_user_with_tokens]: its ['id'],
    and for each token column [None] when the key is absent, [Some v] when
    it is present with value [v]. Other keys set columns not modelled. *)
Record UserData := mkUserData {
  ud_id : Z;
  ud_tokens_used_total : option (option Z);
  ud_tokens_limit_total : option (option Z)
}.

(** [for key, value in user_data.items(): if hasattr(user, key): setattr(...)] *)
Definition apply_user_data (u : User) (ud : UserData) : User :=
  mkUser (user_id u)
         (match ud_tokens_used_total ud with Some v => v | None => user_tokens_used_total u end)
         (match ud_tokens_limit_total ud with Some v => v | None => tokens_limit_total u end).

(** [if not user.tokens_limit_total: limit = 500000, used = 0] *)
Definition init_tokens (u : User) : User :=
  if negb (truthy_int (tokens_limit_total u)) then mkUser (user_id u) (Some 0) (Some 500000)
  else u.

(** [DatabaseManager.create_or_update_user_with_tokens]: returns the user
    object and the committed database ([tokens_admin_chat_id] and
    [tokens_initialized_at] are columns not modelled). Not wrapped in
    try/except. *)
Definition create_or_update_user_with_tokens (up : bool) (db : DB) (ud : UserData)
    : py (User * DB) :=
  rows <- execute up (select_user (ud_id ud) db) ;;
  found <- scalar_one_or_none rows ;;
  match found with
  | Some user =>
      let user' := init_tokens (apply_user_data user ud) in
      _ <- execute up tt ;;  (* session.commit() *)
      Ret (user', mkDB (map (fun u => if user_id u =? ud_id ud
                                      then init_tokens (apply_user_data u ud) else u)
                            (users db))
                       (user_bots db))
  | None =>
      (* user_data.update({'tokens_limit_total': 500000, 'tokens_used_total': 0, ...}) *)
      let user := mkUser (ud_id ud) (Some 0) (Some 500000) in
      _ <- execute up tt ;;  (* session.add(user); session.commit() *)
      Ret (user, mkDB (users db ++ [user])%list (user_bots db))
  end.

(** The subscription columns of a [UserBot] row. *)
Record SubCols := mkSubCols {
  sc_enabled : option bool;             (* subscription_check_enabled *)
  sc_channel_id : option Z;             (* subscription_channel_id *)
  sc_channel_username : option string;  (* subscription_channel_username *)
  sc_deny_message : option string       (* subscription_deny_message *)
}.

(** The [settings] dict of [update_subscription_settings]: for each of its
    four keys, [None] when absent and [Some v] when present with value [v];
    [ss_other_keys] says whether it has any other key. *)
Record SubSettings := mkSubSettings {
  ss_enabled : option (option bool);
  ss_channel_id : option (option Z);
  ss_channel_username : option (option string);
  ss_deny_message : option (option string);
  ss_other_keys : bool
}.

Definition is_some {A} (x : option A) : bool :=
  match x with Some _ => true | None => false end.

(** Truthiness of the [settings] argument: [None] and [{}] are false. *)
Definition sub_settings_truthy (s : option SubSettings) : bool :=
  match s with
  | None => false
  | Some st => is_some (ss_enabled st) || is_some (ss_channel_id st)
               || is_some (ss_channel_username st) || is_some (ss_deny_message st)
               || ss_other_keys st
  end.

(** [settings.get(key, default)] *)
Definition settings_get {A} (k : option (option A)) (d : option A) : option A :=
  match k with Some v => v | None => d end.

(** [if value is not None: update_data[column] = value] *)
Definition write_if_not_none {A} (v : option A) (old : option A) : option A :=
  match v with Some x => Some x | None => old end.

(** The [values(...)] of [update_subscription_settings], applied
    to the subscription columns of a row. *)
Definition subscription_update_values (enabled : option bool) (channel_id : option Z)
    (channel_username deny_message : option string) (settings : option SubSettings)
    (c : SubCols) : SubCols :=
  let '(enabled_val, channel_id_val, channel_username_val, deny_message_val) :=
    match settings with
    | Some st =>
        if sub_settings_truthy settings
        then (settings_get (ss_enabled st) enabled, settings_get (ss_channel_id st) channel_id,
              settings_get (ss_channel_username st) channel_username,
              settings_get (ss_deny_message st) deny_message)
        else (enabled, channel_id, channel_username, deny_message)
    | None => (enabled, channel_id, channel_username, deny_message)
    end in
  mkSubCols (write_if_not_none enabled_val (sc_enabled c))
            (write_if_not_none channel_id_val (sc_channel_id c))
            (write_if_not_none channel_username_val (sc_channel_username c))
            (write_if_not_none deny_message_val (sc_deny_message c)).

(** [update(UserBot).where(UserBot.bot_id == bot_id).values(...)] on one row. *)
Definition subscription_update_row (bid : string) (enabled : option bool)
    (channel_id : option Z) (channel_username deny_message : option string)
    (settings : option SubSettings) (r : string * SubCols) : string * SubCols :=
  if String.eqb (fst r) bid
  then (fst r, subscription_update_values enabled channel_id channel_username deny_message
                 settings (snd r))
  else r.

(** [DatabaseManager.update_subscription_settings] on the subscription
    columns of the [user_bots] table (as [(bot_id, columns)] pairs): the
    ['success'] flag and the table after the call. The fresh read after the
    commit is [scalar_one_or_none]: its exception lands in the except,
    which reports failure although the write was committed. *)
Definition update_subscription_settings (up : bool) (rows : list (string * SubCols))
    (bid : string) (enabled : option bool) (channel_id : option Z)
    (channel_username deny_message : option string) (settings : option SubSettings)
    : bool * list (string * SubCols) :=
  if negb up then (false, rows) else
  let rows' := map (subscription_update_row bid enabled channel_id channel_username
                      deny_message settings) rows in
  match scalar_one_or_none (filter (fun r => String.eqb (fst r) bid) rows') with
  | Ret _ => (true, rows')
  | Raise _ => (false, rows')
  end.

(* ================================================================= *)
(** ** Handlers: AI button, channel gate, admin token panel, token format *)

(** [ChannelHandlers._should_show_ai_button]: [fresh_config.get('enabled')]
    is [True] on every config [get_ai_config] returns, and the config has an
    ['agent_id'] key only for the 'openai' type. [get_ai_config] raises only
    exceptions the [except Exception] catches. *)
Definition should_show_ai_button (up : bool) (db : DB) (bid : string) : bool :=
  match get_ai_config up db bid with
  | Ret (Some (_, agent_id)) => truthy_str agent_id
  | Ret None => false
  | Raise _ => false
  end.

(** [ChannelHandlers._check_channel_subscription]; [get_chat_member] is the
    status the API call answers, or its exception. *)
Definition check_channel_subscription (channel_id : option Z) (get_chat_member : py string)
    : py bool :=
  catch_exception
    (if negb (truthy_int channel_id) then Ret true else
     status <- get_chat_member ;;
     Ret (String.eqb status "member" || String.eqb status "administrator"
          || String.eqb status "creator"))
    (fun _ => true).



(** Character classes of [MasterBot._validate_token]'s pattern
    [^\d+:[A-Za-z0-9_-]+$], on ASCII input. *)
Definition is_digit (c : ascii) : bool :=
  let n := nat_of_ascii c in Nat.leb 48 n && Nat.leb n 57.
Definition is_token_char (c : ascii) : bool :=
  let n := nat_of_ascii c in
  is_digit c || (Nat.leb 65 n && Nat.leb n 90) || (Nat.leb 97 n && Nat.leb n 122)
  || Ascii.eqb c "_" || Ascii.eqb c "-".

Definition newline : ascii := ascii_of_nat 10.

(** [[A-Za-z0-9_-]+$]: [$] also matches just before a final newline;
    [seen] says whether one class character has been matched. *)
Fixpoint match_token_tail (s : string) (seen : bool) : bool :=
  match s with
  | EmptyString => seen
  | String c EmptyString => is_token_char c || (seen && Ascii.eqb c newline)
  | String c rest => is_token_char c && match_token_tail rest true
  end.

(** [^\d+:] followed by the tail. *)
Fixpoint match_token_digits (s : string) (seen : bool) : bool :=
  match s with
  | EmptyString => false
  | String c rest =>
      if is_digit c then match_token_digits rest true
      else seen && Ascii.eqb c ":" && match_token_tail rest false
  end.

(** [MasterBot._validate_token]: [bool(re.match(pattern, token))]. *)
Definition validate_token (token : string) : bool := match_token_digits token false.

(* ================================================================= *)
(** ** [UserBot._format_message] *)

(** [s.startswith(p)] *)
Fixpoint starts_with (p s : string) : bool :=
  match p, s with
  | EmptyString, _ => true
  | String c p', String d s' => Ascii.eqb c d && starts_with p' s'
  | String _ _, EmptyString => false
  end.

(** [s.replace(old, new)] for a non-empty [old]: the occurrences are
    replaced left to right without overlap. [fuel] bounds the number of
    characters scanned. *)
Fixpoint replace_fuel (fuel : nat) (old new s : string) : string :=
  match fuel with
  | O => s
  | S f =>
      match s with
      | EmptyString => EmptyString
      | String c s' =>
          if starts_with old s
          then new ++ replace_fuel f old new (substring (String.length old) (String.length s) s)
          else String c (replace_fuel f old new s')
      end
  end.

Definition str_replace (s old new : string) : string :=
  replace_fuel (String.length s) old new s.

(** [c.isspace()] on ASCII: tab to carriage return, the separators 28 to 31,
    and space. *)
Definition is_py_space (c : ascii) : bool :=
  let n := nat_of_ascii c in
  (Nat.leb 9 n && Nat.leb n 13) || (Nat.leb 28 n && Nat.leb n 32).

Fixpoint lstrip (s : string) : string :=
  match s with
  | String c s' => if is_py_space c then lstrip s' else s
  | EmptyString => EmptyString
  end.

Definition rstrip (s : string) : string :=
  string_of_list_ascii (rev (list_ascii_of_string (lstrip
    (string_of_list_ascii (rev (list_ascii_of_string s)))))).

(** [s.strip()] *)
Definition strip (s : string) : string := rstrip (lstrip s).

(** [str(n)] on a non-negative [n]: [fuel] digits at most. *)
Fixpoint decimal_fuel (fuel : nat) (n : Z) (acc : string) : string :=
  match fuel with
  | O => acc
  | S f =>
      let acc' := String (ascii_of_nat (48 + Z.to_nat (n mod 10))) acc in
      if n <? 10 then acc' else decimal_fuel f (n / 10) acc'
  end.

(** [str(n)] *)
Definition str_of_Z (n : Z) : string :=
  if n <? 0 then String "-" (decimal_fuel (S (Z.to_nat (Z.log2 (- n)))) (- n) EmptyString)
  else decimal_fuel (S (Z.to_nat (Z.log2 n))) n EmptyString.

Definition dquote : string := String (ascii_of_nat 34) EmptyString.

(** The attributes of the Telegram user the template is filled with. *)
Record TgUser := mkTgUser {
  tg_id : Z;
  tg_first_name : option string;
  tg_last_name : option string;
  tg_username : option string
}.

(** [getattr(user, attr, '') or ''] *)
Definition str_or_empty (x : option string) : string :=
  match x with Some s => s | None => EmptyString end.

(** The [variables] dict, in its insertion order. *)
Definition format_variables (user : TgUser) : list (string * string) :=
  let first_name := str_or_empty (tg_first_name user) in
  let last_name := str_or_empty (tg_last_name user) in
  let username := str_or_empty (tg_username user) in
  let user_id := tg_id user in
  let full := strip (first_name ++ " " ++ last_name) in
  [("first_name", first_name);
   ("last_name", last_name);
   ("full_name", if String.eqb full "" then first_name else full);
   ("username", if String.eqb username "" then EmptyString else "@" ++ username);
   ("user_id", str_of_Z user_id);
   ("mention", if String.eqb first_name ""
               then "User " ++ str_of_Z user_id
               else "<a href=" ++ dquote ++ "tg://user?id=" ++ str_of_Z user_id ++ dquote
                    ++ ">" ++ first_name ++ "</a>")].

(** One round of the loop: [{var}], then [{{var}}], then [$var]. *)
Definition replace_variable (s : string) (kv : string * string) : string :=
  let '(var_name, var_value) := kv in
  let s1 := str_replace s ("{" ++ var_name ++ "}") var_value in
  let s2 := str_replace s1 ("{{" ++ var_name ++ "}}") var_value in
  str_replace s2 ("$" ++ var_name) var_value.

(** [UserBot._format_message]; nothing in the [try] raises on these
    inputs. *)
Definition format_message (template : string) (user : TgUser) : string :=
  if String.eqb template "" then "" else
  fold_left replace_variable (format_variables user) template.

(* ================================================================= *)
(** * Theorems *)

(** ** Concrete databases used by the examples *)

Definition ai_off : AiFields :=
  mkAi false None None None None None None None None.
Definition ai_openai (enabled : bool) (agent : option string) : AiFields :=
  mkAi enabled (Some "openai") agent None None None None None None.
Definition tok_total (n : Z) : TokenFields := mkTok (Some 0) (Some 0) (Some n) None.

(** Owner 1 has an 'openai' bot without agent id ("A", 100 tokens) and a
    metered bot ("B"). *)
Definition db_two_openai : DB :=
  mkDB [mkUser 1 (Some 100) (Some 1000)]
       [mkBot "A" 1 "active" true None (ai_openai true None) (tok_total 100);
        mkBot "B" 1 "active" true None (ai_openai true (Some "asst_1")) (tok_total 0)].

(** Owner 7: limit 1000, 950 used, all on the metered bot "w1". *)
Definition db_950 : DB :=
  mkDB [mkUser 7 (Some 950) (Some 1000)]
       [mkBot "w1" 7 "active" true None (ai_openai true (Some "asst_7")) (tok_total 950)].

Example save_token_usage_db_950 :
  exists db', save_token_usage true db_950 "w1" 40 20 None = Ret (true, db')
              /\ select_user 7 db' = [mkUser 7 (Some 1010) (Some 1000)].
Proof. eexists. split; reflexivity. Qed.

(** ** Helper lemmas on the ledger embedding *)

Lemma int_or_some_0 : forall k, int_or (Some k) 0 = k.
Proof. intros k. unfold int_or, truthy_int. destruct (k =? 0) eqn:E; simpl; lia. Qed.

Lemma int_or_none : forall d, int_or None d = d.
Proof. reflexivity. Qed.

Lemma sql_sum_fold : forall xs acc,
  int_or (fold_left (fun acc x => match x with
                                  | None => acc
                                  | Some n => Some (match acc with Some a => a + n | None => n end)
                                  end) xs acc) 0
  = int_or acc 0 + fold_right Z.add 0 (map (fun x => int_or x 0) xs).
Proof.
  induction xs as [|x xs IH]; intros acc; simpl.
  - lia.
  - rewrite IH. destruct x as [n|]; [destruct acc as [a|]|];
      rewrite ?int_or_some_0, ?int_or_none; lia.
Qed.

(** [int(SUM(...) or 0)] is the sum with NULLs read as 0. *)
Lemma sql_sum_int : forall xs,
  int_or (sql_sum xs) 0 = fold_right Z.add 0 (map (fun x => int_or x 0) xs).
Proof. intros xs. unfold sql_sum. rewrite sql_sum_fold. reflexivity. Qed.

Lemma filter_map_comm {A} (p : A -> bool) (f : A -> A) (l : list A) :
  (forall x, p (f x) = p x) -> filter p (map f l) = map f (filter p l).
Proof.
  intros Hp. induction l as [|x l IH]; simpl; [reflexivity|].
  rewrite Hp. destruct (p x); simpl; rewrite IH; reflexivity.
Qed.

Lemma owner_sum_query_int : forall owner db,
  int_or (owner_sum_query owner db) 0 = metered_sum owner db.
Proof.
  intros owner db. unfold owner_sum_query, metered_sum.
  rewrite sql_sum_int, map_map. reflexivity.
Qed.

Lemma update_user_used_users : forall uid v db u,
  In u (users (update_user_used uid v db)) -> user_id u = uid ->
  user_tokens_used_total u = Some v.
Proof.
  intros uid v db u Hin Hid. simpl in Hin. apply in_map_iff in Hin.
  destruct Hin as [u0 [Hu _]]. subst u.
  destruct (user_id u0 =? uid) eqn:E; [reflexivity|].
  simpl in Hid. apply Z.eqb_neq in E. contradiction.
Qed.

Lemma select_bot_update : forall bid f db,
  (forall b, bot_id (f b) = bot_id b) ->
  select_bot bid (update_bots bid f db) = map f (select_bot bid db).
Proof.
  intros bid f db Hf. unfold select_bot, update_bots. simpl.
  induction (user_bots db) as [|b l IH]; simpl; [reflexivity|].
  destruct (String.eqb (bot_id b) bid) eqn:E; simpl.
  - rewrite Hf, E. simpl. rewrite IH. reflexivity.
  - rewrite E. exact IH.
Qed.

(** ** C1: the charge and the owner aggregate *)

(** Claim C1 fails as stated: owner 1's bot "A" has agent type 'openai' but
    no agent id; after charging bot "B" with 10 + 5 tokens the owner's total
    is 15, while the sum over all of the owner's 'openai' bots is 115. *)
Lemma C1_counterexample : ~ charge_sync_spec true db_two_openai "B" 10 5 None.
Proof.
  unfold charge_sync_spec. intros H.
  specialize (H _ eq_refl
                (mkBot "B" 1 "active" true None (ai_openai true (Some "asst_1")) (tok_total 0))
                (or_introl eq_refl) (mkUser 1 (Some 15) (Some 1000))
                (or_introl eq_refl) eq_refl).
  vm_compute in H. discriminate H.
Qed.

(** C1 (amended). [save_token_usage] never raises and is all-or-nothing: it
    returns [False] with the database unchanged, or [True] after one commit
    in which the charged bot (found as the only row with its [bot_id]) has
    its input, output and total counters increased by the reported counts,
    and then every row of its owner in [users] holds, as [tokens_used_total],
    the sum of [tokens_used_total] (NULL as 0) over the owner's bots with
    [ai_assistant_type = 'openai'] and a non-NULL [openai_agent_id], taken
    in the committed state. *)
Theorem save_token_usage_syncs_owner_total :
  forall up db bid input_tokens output_tokens admin_chat_id,
  match save_token_usage up db bid input_tokens output_tokens admin_chat_id with
  | Raise _ => False
  | Ret (false, db') => db' = db
  | Ret (true, db') =>
      exists bot,
        select_bot bid db = [bot] /\
        select_bot bid db' = [set_tok bot (charged_tokens bot input_tokens output_tokens admin_chat_id)] /\
        (forall u, In u (users db') -> user_id u = bot_user_id bot ->
                   user_tokens_used_total u = Some (metered_sum (bot_user_id bot) db'))
  end.
Proof.
  intros up db bid i o adm.
  unfold save_token_usage, save_token_usage_session.
  destruct up; simpl; [|reflexivity].
  destruct (select_bot bid db) as [|bot [|b2 rest]] eqn:Hsel; simpl; try reflexivity.
  exists bot. split; [reflexivity|]. split.
  - unfold update_user_used. unfold select_bot at 1. simpl.
    change (select_bot bid (update_bots bid (fun b => set_tok b (charged_tokens bot i o adm)) db)
            = [set_tok bot (charged_tokens bot i o adm)]).
    rewrite select_bot_update by reflexivity. rewrite Hsel. reflexivity.
  - intros u Hin Hid.
    rewrite (update_user_used_users _ _ _ _ Hin Hid).
    rewrite owner_sum_query_int. reflexivity.
Qed.

(** ** C10: the quota check is total and fails closed *)

Lemma check_token_limit_eq : forall up db uid,
  check_token_limit up db uid =
  Ret (if up
       then match select_user uid db with
            | [] => (false, 0, 500000)
            | data :: _ =>
                (int_or (user_tokens_used_total data) 0 <? int_or (tokens_limit_total data) 500000,
                 int_or (user_tokens_used_total data) 0,
                 int_or (tokens_limit_total data) 500000)
            end
       else (false, 0, 500000)).
Proof.
  intros up db uid. unfold check_token_limit, check_token_limit_session.
  destruct up; simpl; [|reflexivity].
  destruct (select_user uid db); reflexivity.
Qed.

(** C10. [check_token_limit] never raises: with the database unreachable, or
    no [User] row for the id, it returns [(False, 0, 500000)]; otherwise it
    returns the first row's [total_used < tokens_limit] with NULL used read
    as 0 and a NULL or 0 limit read as 500000. *)
Theorem check_token_limit_fail_closed : forall up db uid,
  check_token_limit up db uid =
  Ret (if up
       then match select_user uid db with
            | [] => (false, 0, 500000)
            | data :: _ =>
                (int_or (user_tokens_used_total data) 0 <? int_or (tokens_limit_total data) 500000,
                 int_or (user_tokens_used_total data) 0,
                 int_or (tokens_limit_total data) 500000)
            end
       else (false, 0, 500000)).
Proof. exact check_token_limit_eq. Qed.

(** ** C3: the quota check and an uncapped charge *)

(** Reading of the check by the words of the claim: allowed exactly when the
    used total is strictly below the stored limit. *)
Definition check_by_stored_limit (db : DB) (uid : Z) : Prop :=
  forall ok used lim data rest,
  check_token_limit true db uid = Ret (ok, used, lim) ->
  select_user uid db = data :: rest ->
  ok = (int_or (user_tokens_used_total data) 0 <? match tokens_limit_total data with
                                                   | Some l => l | None => 500000 end).

(** An owner row with a stored limit of 0 and 10 tokens used. *)
Definition db_limit_0 : DB := mkDB [mkUser 3 (Some 10) (Some 0)] [].

(** C3 fails as stated: with a stored limit of 0 the check allows the owner
    (10 < 500000), while 10 is not below the stored limit 0. *)
Lemma C3_counterexample : ~ check_by_stored_limit db_limit_0 3.
Proof.
  unfold check_by_stored_limit. intros H.
  specialize (H true 10 500000 (mkUser 3 (Some 10) (Some 0)) [] eq_refl eq_refl).
  discriminate H.
Qed.

(** C3 (amended). The check allows exactly when [total_used] (NULL as 0) is
    strictly below the effective limit (the stored limit, 500000 when it is
    NULL or 0); and the charge is not capped: with limit 1000 and 950 used
    the check passes, a charge of 40 + 20 tokens succeeds and leaves 1010
    used, and the following check is denied. *)
Theorem check_token_limit_effective_limit :
  (forall db uid,
     match select_user uid db with
     | [] => True
     | data :: _ =>
         check_token_limit true db uid =
         Ret (int_or (user_tokens_used_total data) 0 <? int_or (tokens_limit_total data) 500000,
              int_or (user_tokens_used_total data) 0,
              int_or (tokens_limit_total data) 500000)
     end) /\
  check_token_limit true db_950 7 = Ret (true, 950, 1000) /\
  (exists db', save_token_usage true db_950 "w1" 40 20 None = Ret (true, db') /\
               check_token_limit true db' 7 = Ret (false, 1010, 1000)).
Proof.
  split; [|split].
  - intros db uid. rewrite check_token_limit_eq.
    destruct (select_user uid db); reflexivity.
  - reflexivity.
  - eexists. split; reflexivity.
Qed.

(** ** C5: retry with backoff, the error state and restart *)

Lemma polling_loop_refines_spec : forall up outs n s db,
  rt_error_count s = n ->
  polling_loop up outs n s db = polling_loop_spec up outs s db.
Proof.
  intros up outs. induction outs as [|o outs IH]; intros n s db Hn; subst n; simpl.
  - reflexivity.
  - destruct (rt_is_running s && Nat.ltb (rt_error_count s) max_retries); [|reflexivity].
    destruct o; try reflexivity.
    simpl. destruct (Nat.ltb (S (rt_error_count s)) max_retries); [|reflexivity].
    rewrite (IH (S (rt_error_count s)) (rt_incr_errors s) db eq_refl). reflexivity.
Qed.

Definition five_failures : list poll_outcome :=
  [PollFails; PollFails; PollFails; PollFails; PollFails].

(** The running instance of bot "w1" just after [start]. *)
Definition rt_w1_running : RT :=
  mkRT "w1" "w1_bot" true true (Some TaskPending) true 0.

(** The same instance once its polling task has ended: five failures in a row
    with the database down, so the [update_bot_status] of the fifth failure
    raises [DBError], which is not caught in [_start_polling] and becomes the
    task's exception. *)
Definition rt_w1_failed : RT :=
  let '(s', r, _) := start_polling false five_failures rt_w1_running db_950 in
  rt_set_task s' (Some (TaskDone (match r with Ret _ => Ret tt | Raise e => Raise e end))).

Lemma restart_after_stop : forall old bid username s1 evs,
  stop old = (s1, Ret tt, evs) ->
  exists s' evs', restart_bot old bid username (Some username) = (Ret s', evs') /\
    rt_is_running s' = true /\ rt_error_count s' = 0%nat /\
    rt_polling_task s' = Some TaskPending.
Proof.
  intros old bid username s1 evs Hstop. unfold restart_bot. rewrite Hstop.
  unfold start. simpl. rewrite String.eqb_refl. simpl.
  eexists _, _. split; [reflexivity|]. repeat split.
Qed.

(** C5. From a fresh instance ([error_count = 0]) the polling loop is the
    loop of the spec: each failure increments [error_count] and sleeps
    [min(error_count * 5, 30)] seconds, and the fifth failure stops the loop.
    Concretely, five failures in a row give sleeps of 5, 10, 15 and 20 s,
    then [is_running = false], [error_count = 5] and the row persisted with
    [status = "error"], [is_running = false]; later outcomes are never
    consumed. A restart of that instance (spec-modelled) runs again with
    [error_count = 0]. *)
Theorem polling_backoff_then_restart :
  (forall up outs s db, rt_error_count s = 0%nat ->
     start_polling up outs s db = polling_loop_spec up outs s db) /\
  exists s' db',
    (forall rest, start_polling true (five_failures ++ rest) rt_w1_running db_950 =
       (s', Ret db',
        [EvPollAttempt; EvSleep 5; EvPollAttempt; EvSleep 10; EvPollAttempt; EvSleep 15;
         EvPollAttempt; EvSleep 20; EvPollAttempt; EvStatusWrite "error" false])) /\
    rt_is_running s' = false /\ rt_error_count s' = 5%nat /\
    map (fun b => (bot_status b, bot_is_running b)) (select_bot "w1" db') = [("error", false)] /\
    exists s'' evs,
      restart_bot (rt_set_task s' (Some (TaskDone (Ret tt)))) "w1" "w1_bot" (Some "w1_bot")
        = (Ret s'', evs) /\
      rt_is_running s'' = true /\ rt_error_count s'' = 0%nat.
Proof.
  split.
  - intros up outs s db H. apply polling_loop_refines_spec. exact H.
  - eexists _, _. split; [intros rest; reflexivity|].
    split; [reflexivity|]. split; [reflexivity|]. split; [reflexivity|].
    eexists _, _. split; [reflexivity|]. split; reflexivity.
Qed.

(** ** C9: stop is idempotent *)

(** C9 fails: after the polling task of "w1" ended with [DBError] (five
    failures with the database down), [stop] raises [DBError] and leaves the
    bot (its session open), the dispatcher and the task in place; a second
    [stop] raises again and changes nothing, closing no session. *)
Lemma C9_counterexample :
  let '(s1, r1, _) := stop rt_w1_failed in
  r1 = Raise DBError /\ rt_bot s1 = true /\ rt_dp s1 = true /\ rt_polling_task s1 <> None /\
  let '(s2, r2, evs2) := stop s1 in
  r2 = Raise DBError /\ s2 = s1 /\ ~ In EvSessionClose evs2.
Proof.
  vm_compute. repeat split; try discriminate.
  intros [H|[]]; discriminate H.
Qed.

(** C9 (amended). Stopping an already-stopped instance (no task, no bot, no
    dispatcher, not running) returns normally and changes nothing. After a
    [stop] that returns normally the instance is released (not running, no
    bot, no dispatcher, no task) and a second [stop] returns normally, emits
    nothing and changes nothing. A [stop] that raises (the task ended with an
    exception other than a cancellation) only sets [is_running = False]: bot,
    dispatcher and task stay, no session is closed, and the next [stop]
    raises the same exception and changes nothing. *)
Theorem stop_idempotent :
  (forall s, rt_polling_task s = None -> rt_bot s = false -> rt_dp s = false ->
     rt_is_running s = false -> stop s = (s, Ret tt, [])) /\
  (forall s s' evs, stop s = (s', Ret tt, evs) ->
     stop s' = (s', Ret tt, []) /\ rt_is_running s' = false /\ rt_bot s' = false /\
     rt_dp s' = false /\ rt_polling_task s' = None) /\
  (forall s s' e evs, stop s = (s', Raise e, evs) ->
     s' = rt_set_running s false /\ rt_bot s' = rt_bot s /\ rt_dp s' = rt_dp s /\
     rt_polling_task s' = rt_polling_task s /\ ~ In EvSessionClose evs /\
     stop s' = (s', Raise e, [EvCancel])).
Proof.
  split; [|split].
  - intros [bid u b d t r n] Ht Hb Hd Hr; simpl in *; subst. reflexivity.
  - intros [bid u b d t r n] s' evs H. unfold stop in H. simpl in H.
    destruct t as [t|].
    + destruct (await_cancelled t) as [[]|[]]; simpl in H; inversion H; subst;
        repeat split; reflexivity.
    + simpl in H. inversion H; subst. repeat split; reflexivity.
  - intros [bid u b d t r n] s' e evs H. unfold stop in H. simpl in H.
    destruct t as [t|]; [|discriminate H].
    destruct (await_cancelled t) as [[]|e0] eqn:Ha; [discriminate H|].
    destruct e0; inversion H; subst;
      (split; [reflexivity|]); (split; [reflexivity|]); (split; [reflexivity|]);
      (split; [reflexivity|]); (split; [intros [H0|[]]; discriminate H0|]);
      unfold stop; simpl; rewrite Ha; reflexivity.
Qed.

(** ** C6: the AI configuration write does not validate *)

Definition db_ai_off : DB :=
  mkDB [] [mkBot "A" 1 "active" true (Some false) ai_off (tok_total 0)].

(** C6 fails: from a store whose only row has AI off (valid), the call
    [update_ai_assistant("A", enabled=True)] made by the owner's
    "ai_toggle_status" button commits a row with AI enabled and no agent
    type. *)
Lemma C6_counterexample : ~ ai_write_validates true db_ai_off "A" true None None.
Proof.
  unfold ai_write_validates, db_ai_valid. intros H.
  assert (Hv : forall b, In b (user_bots db_ai_off) -> ai_config_valid (ai b) = true).
  { intros b [Hb|[]]. subst b. reflexivity. }
  specialize (H Hv true _ eq_refl _ (or_introl eq_refl)).
  discriminate H.
Qed.

(** C6 (amended). [update_ai_assistant] validates nothing and is
    all-or-nothing: it returns [False] with the database unchanged, or [True]
    with its whole update applied, in one commit, to the rows with the given
    [bot_id]; that update always writes [ai_assistant_enabled = enabled],
    whatever the agent type and handle. *)
Theorem update_ai_assistant_unvalidated_atomic :
  forall up db bid enabled assistant_id settings,
  match update_ai_assistant up db bid enabled assistant_id settings with
  | Raise _ => False
  | Ret (false, db') => db' = db
  | Ret (true, db') =>
      exists patch,
        ai_update_data enabled assistant_id settings = Ret patch /\
        db' = update_bots bid patch db /\
        forall b, ai_assistant_enabled (ai (patch b)) = enabled
  end.
Proof.
  intros up db bid enabled aid st.
  unfold update_ai_assistant, update_ai_assistant_session.
  destruct (ai_update_data enabled aid st) as [patch|e] eqn:Hp.
  - destruct up; simpl; [|reflexivity].
    exists patch. split; [reflexivity|]. split; [reflexivity|].
    intros a. unfold ai_update_data in Hp.
    destruct (truthy_str aid); destruct st as [st|].
    + destruct (settings_nonempty st && opt_str_eqb (s_agent_type st) "openai");
        inversion Hp; reflexivity.
    + discriminate Hp.
    + destruct (settings_nonempty st); inversion Hp; subst; simpl; [|reflexivity].
      destruct (opt_str_eqb (s_agent_type st) "openai"); reflexivity.
    + inversion Hp; reflexivity.
  - simpl. destruct e; try reflexivity.
    unfold ai_update_data in Hp.
    destruct (truthy_str aid); destruct st as [st|];
      try destruct (settings_nonempty st && opt_str_eqb (s_agent_type st) "openai");
      try destruct (settings_nonempty st); discriminate Hp.
Qed.

(** ** Ordering checks *)

Lemma signals_after_verify_b_sound : forall tr seen,
  signals_after_verify_b seen tr = true ->
  forall pre e post, tr = (pre ++ e :: post)%list -> is_signal e = true ->
  seen = true \/ In (CVerify true) pre.
Proof.
  induction tr as [|x tr IH]; intros seen H pre e post Heq Hs.
  - destruct pre; discriminate Heq.
  - simpl in H. apply andb_prop in H. destruct H as [H1 H2].
    destruct pre as [|y pre]; simpl in Heq; inversion Heq; subst.
    + rewrite Hs in H1. destruct seen; [left; reflexivity|discriminate H1].
    + destruct (IH _ H2 pre e post eq_refl Hs) as [Hseen|Hin].
      * destruct seen; [left; reflexivity|].
        destruct y as [| [] | | | | |]; try discriminate Hseen.
        right. left. reflexivity.
      * right. right. exact Hin.
Qed.

Lemma signals_after_verify_of_b : forall tr,
  signals_after_verify_b false tr = true -> signals_after_verify tr.
Proof.
  intros tr H pre e post Heq He.
  assert (Hs : is_signal e = true) by (destruct He as [->|[->| ->]]; reflexivity).
  destruct (signals_after_verify_b_sound tr false H pre e post Heq Hs) as [F|Hin];
    [discriminate F|exact Hin].
Qed.

Lemma delete_after_stop_b_sound : forall tr seen,
  delete_after_stop_b seen tr = true ->
  forall pre post, tr = (pre ++ CDeleteRow :: post)%list ->
  seen = true \/ In CRemoveBot pre.
Proof.
  induction tr as [|x tr IH]; intros seen H pre post Heq.
  - destruct pre; discriminate Heq.
  - simpl in H. apply andb_prop in H. destruct H as [H1 H2].
    destruct pre as [|y pre]; simpl in Heq; inversion Heq; subst.
    + destruct seen; [left; reflexivity|discriminate H1].
    + destruct (IH _ H2 pre post eq_refl) as [Hseen|Hin].
      * destruct seen; [left; reflexivity|].
        destruct y; try discriminate Hseen. right. left. reflexivity.
      * right. right. exact Hin.
Qed.

Lemma delete_after_stop_of_b : forall tr,
  delete_after_stop_b false tr = true -> delete_after_stop tr.
Proof.
  intros tr H pre post Heq.
  destruct (delete_after_stop_b_sound tr false H pre post Heq) as [F|Hin];
    [discriminate F|exact Hin].
Qed.

(** ** C2: write-then-verify *)

(** C2 fails: creating a bot with a bot manager attached writes the row and
    calls [add_bot] with no verify before it. *)
Lemma C2_counterexample :
  ~ signals_after_verify (snd (handle_token_input true true true true db_950 "w2" 7)).
Proof.
  unfold signals_after_verify. intros H.
  specialize (H [CWrite] CAddBot [CReportSuccess] eq_refl (or_introl eq_refl)).
  simpl in H. destruct H as [H|H]; [discriminate H|exact H].
Qed.

(** C2 (amended). Only the subscription toggle verifies its write, with one
    read of the flag: there, every success report comes after a verify that
    answered true, and a verify that answered false is never followed by a
    success report. Bot creation with a bot manager attached writes the row,
    calls [add_bot] and reports success without any verify. *)
Theorem toggle_verifies_creation_does_not :
  (forall is_owner up db bid,
     signals_after_verify (snd (cb_toggle_subscription is_owner up db bid)) /\
     (In (CVerify false) (snd (cb_toggle_subscription is_owner up db bid)) ->
      ~ In CReportSuccess (snd (cb_toggle_subscription is_owner up db bid)))) /\
  (forall up db bid expected,
     verify_update_success up db bid expected
     = Bool.eqb (get_subscription_status_no_cache up db bid) expected) /\
  (forall db bid owner,
     snd (handle_token_input true true true true db bid owner)
     = [CWrite; CAddBot; CReportSuccess]).
Proof.
  split; [|split; [reflexivity|reflexivity]].
  intros is_owner up db bid. unfold cb_toggle_subscription.
  destruct is_owner; simpl.
  2:{ split; [apply signals_after_verify_of_b; reflexivity|].
      intros [H|[]]; discriminate H. }
  destruct (update_subscription_enabled up db bid
              (negb (get_subscription_status_no_cache up db bid))) as [ok db1].
  destruct ok; simpl.
  2:{ split; [apply signals_after_verify_of_b; reflexivity|].
      intros [H|[]]; discriminate H. }
  destruct (verify_update_success up db1 bid
              (negb (get_subscription_status_no_cache up db bid))); simpl.
  - split; [apply signals_after_verify_of_b; reflexivity|].
    intros [H|[H|[H|[]]]]; discriminate H.
  - split; [apply signals_after_verify_of_b; reflexivity|].
    intros _ [H|[H|[H|[]]]]; discriminate H.
Qed.

(** ** C8: stop before delete *)

(** C8 fails: with no bot manager attached ([MasterBot(bot_manager=None)]),
    the owner's confirmation deletes the row and no stop is ever issued. *)
Lemma C8_counterexample :
  ~ delete_after_stop (snd (confirm_delete_bot false true db_950 "w1" 7)).
Proof.
  unfold delete_after_stop. intros H.
  specialize (H [] [CReportSuccess] eq_refl). exact H.
Qed.

(** C8 (amended). When the caller owns the bot and the database answers,
    [_confirm_delete_bot] deletes the bot's row and reports success, with or
    without a bot manager; otherwise it deletes nothing and reports failure.
    With a bot manager attached it issues [remove_bot] before it deletes the
    row, whatever [remove_bot] does; with no bot manager it deletes the row
    without any stop instruction. *)
Theorem confirm_delete_bot_order :
  forall (has_manager up : bool) (db : DB) (bid : string) (caller : Z),
  let r := confirm_delete_bot has_manager up db bid caller in
  (if has_manager then delete_after_stop (snd r) else ~ In CRemoveBot (snd r)) /\
  ((up = true /\ exists bot rest, select_bot bid db = bot :: rest /\ bot_user_id bot = caller) ->
     fst r = delete_rows bid db /\ In CDeleteRow (snd r) /\ In CReportSuccess (snd r)) /\
  (~ (up = true /\ exists bot rest, select_bot bid db = bot :: rest /\ bot_user_id bot = caller) ->
     r = (db, [CReportFailure])).
Proof.
  intros has_manager up db bid caller r. subst r. unfold confirm_delete_bot.
  destruct up; simpl.
  2: { split; [destruct has_manager; [apply delete_after_stop_of_b; reflexivity|];
               intros [H|[]]; discriminate H|].
       split; [intros [H _]; discriminate H|reflexivity]. }
  destruct (select_bot bid db) as [|bot rest] eqn:Hs; simpl.
  { split; [destruct has_manager; [apply delete_after_stop_of_b; reflexivity|];
            intros [H|[]]; discriminate H|].
    split; [intros [_ [b [r [H _]]]]; discriminate H|reflexivity]. }
  destruct (bot_user_id bot =? caller) eqn:Hc; simpl.
  - apply Z.eqb_eq in Hc.
    split; [destruct has_manager; [apply delete_after_stop_of_b; reflexivity|];
            simpl; intros [H|[H|[]]]; discriminate H|].
    split.
    + intros _. destruct has_manager; simpl; split; [reflexivity| |reflexivity|];
        split; auto; right; auto.
    + intros Hn. exfalso. apply Hn. split; [reflexivity|]. exists bot, rest. split; [reflexivity|exact Hc].
  - apply Z.eqb_neq in Hc.
    split; [destruct has_manager; [apply delete_after_stop_of_b; reflexivity|];
            intros [H|[]]; discriminate H|].
    split; [|reflexivity].
    intros [_ [b [r [H Hb]]]]. injection H as <- <-. contradiction.
Qed.

(** ** C4: threshold notices *)



(** ** C7: quota check before the LLM call, and the charge *)











(** ** Witnesses: the theorems at concrete inputs *)

Lemma save_token_usage_syncs_owner_total_witness :
  match save_token_usage true db_950 "w1" 40 20 None with
  | Ret (true, db') => exists u, In u (users db') /\ user_id u = 7 /\
                                 user_tokens_used_total u = Some (metered_sum 7 db')
  | _ => False
  end.
Proof.
  pose proof (save_token_usage_syncs_owner_total true db_950 "w1" 40 20 None) as H.
  simpl in H |- *. destruct H as [bot [Hsel [_ Hu]]].
  inversion Hsel; subst bot.
  exists (mkUser 7 (Some 1010) (Some 1000)). split; [left; reflexivity|].
  split; [reflexivity|]. apply Hu; [left; reflexivity|reflexivity].
Defined.

(** A store without bot "w9": the toggle's write finds no row and its verify
    answers false. *)
Lemma toggle_verifies_creation_does_not_witness :
  In (CVerify false) (snd (cb_toggle_subscription true true db_950 "w9")) /\
  ~ In CReportSuccess (snd (cb_toggle_subscription true true db_950 "w9")).
Proof.
  assert (Hin : In (CVerify false) (snd (cb_toggle_subscription true true db_950 "w9")))
    by (simpl; right; left; reflexivity).
  split; [exact Hin|].
  exact (proj2 (proj1 toggle_verifies_creation_does_not true true db_950 "w9") Hin).
Defined.

Lemma polling_backoff_then_restart_witness :
  rt_error_count rt_w1_running = 0%nat /\
  start_polling true five_failures rt_w1_running db_950
  = polling_loop_spec true five_failures rt_w1_running db_950.
Proof.
  split; [reflexivity|].
  apply (proj1 polling_backoff_then_restart). reflexivity.
Defined.

Lemma stop_idempotent_witness :
  stop (user_bot_init "w1" "w1_bot") = (user_bot_init "w1" "w1_bot", Ret tt, []) /\
  stop (mkRT "w1" "w1_bot" false false None false 0) =
    (mkRT "w1" "w1_bot" false false None false 0, Ret tt, []) /\
  stop (rt_set_running rt_w1_failed false) =
    (rt_set_running rt_w1_failed false, Raise DBError, [EvCancel]).
Proof.
  split; [|split].
  - apply (proj1 stop_idempotent); reflexivity.
  - apply (proj1 (proj2 stop_idempotent) rt_w1_running _ [EvCancel; EvSessionClose]).
    reflexivity.
  - apply (proj2 (proj2 stop_idempotent) rt_w1_failed _ DBError [EvCancel]).
    vm_compute. reflexivity.
Defined.


Lemma confirm_delete_bot_order_witness :
  fst (confirm_delete_bot true true db_950 "w1" 7) = delete_rows "w1" db_950 /\
  In CDeleteRow (snd (confirm_delete_bot true true db_950 "w1" 7)).
Proof.
  destruct (proj1 (proj2 (confirm_delete_bot_order true true db_950 "w1" 7)))
    as [H1 [H2 _]].
  - split; [reflexivity|]. eexists _, _. split; reflexivity.
  - split; [exact H1|exact H2].
Defined.

(* ================================================================= *)
(** * Further properties of the code *)

(** ** Reads of the token columns *)

Lemma ltb_as_remaining : forall a b, (a <? b) = (0 <? b - a).
Proof. intros a b. destruct (Z.ltb_spec a b), (Z.ltb_spec 0 (b - a)); lia. Qed.

(** [get_user_token_balance] and [check_token_limit] read the same row the
    same way: the balance is [None] exactly when the check answers its
    fail-closed default, and otherwise ['remaining'] is
    ['limit'] - ['total_used'] and the check allows exactly when it is
    positive. *)
Theorem token_balance_agrees_with_check : forall up db uid,
  match get_user_token_balance up db uid with
  | None => check_token_limit up db uid = Ret (false, 0, 500000)
  | Some d => exists used lim,
      dict_get d "total_used" = Some used /\ dict_get d "limit" = Some lim /\
      dict_get d "remaining" = Some (lim - used) /\
      check_token_limit up db uid = Ret (0 <? lim - used, used, lim)
  end.
Proof.
  intros up db uid. rewrite check_token_limit_eq. unfold get_user_token_balance.
  destruct up; [|reflexivity].
  destruct (select_user uid db) as [|data rest]; [reflexivity|].
  eexists _, _. split; [reflexivity|]. split; [reflexivity|]. split; [reflexivity|].
  rewrite ltb_as_remaining. reflexivity.
Qed.

(** For a bot whose AI config is an OpenAI agent, the worker's quota check
    [_check_openai_token_limit] allows exactly when
    [DatabaseManager.check_token_limit] allows for the owner. *)
Theorem openai_quota_check_agrees : forall has_bot up db bid owner aid,
  get_ai_config up db bid = Ret (Some ("openai", aid)) ->
  exists used lim, check_token_limit up db owner =
    Ret (fst (check_openai_token_limit has_bot up db bid owner), used, lim).
Proof.
  intros has_bot up db bid owner aid H.
  unfold check_openai_token_limit. rewrite H.
  rewrite check_token_limit_eq. unfold get_user_token_balance.
  destruct up; [|simpl in H; discriminate H].
  simpl String.eqb. cbv iota beta.
  destruct (select_user owner db) as [|data rest]; [eexists _, _; reflexivity|].
  unfold dict_get_default, dict_get. simpl find. cbv iota beta.
  set (lim := int_or (tokens_limit_total data) 500000).
  set (used := int_or (user_tokens_used_total data) 0).
  exists used, lim. rewrite ltb_as_remaining.
  destruct (Z.leb_spec (lim - used) 0) as [Hle|Hgt].
  - simpl. destruct (Z.ltb_spec 0 (lim - used)); [lia|reflexivity].
  - destruct (Z.leb (lim - used) 0) eqn:E; [apply Z.leb_le in E; lia|].
    destruct (9 * lim <=? 10 * used); simpl;
      destruct (Z.ltb_spec 0 (lim - used)); try lia; reflexivity.
Qed.


(** ** Channel gate and AI button *)

(** [_check_channel_subscription] fails open: it denies only when a channel
    is set and the membership lookup answered a status other than
    ['member'], ['administrator'] and ['creator']; a lookup error grants
    access. *)
Theorem channel_subscription_fails_open : forall channel_id m,
  check_channel_subscription channel_id m = Ret false <->
  truthy_int channel_id = true /\
  exists status, m = Ret status /\
    status <> "member" /\ status <> "administrator" /\ status <> "creator".
Proof.
  intros channel_id m. unfold check_channel_subscription.
  destruct (truthy_int channel_id); simpl.
  - destruct m as [status|e]; simpl.
    + destruct (String.eqb_spec status "member"), (String.eqb_spec status "administrator"),
        (String.eqb_spec status "creator"); simpl;
        split; intros H; try discriminate H;
        try (destruct H as [_ [st [Hst [H1 [H2 H3]]]]]; injection Hst as <-; contradiction);
        split; [reflexivity|exists status; repeat split; assumption].
    + destruct e; simpl; split; intros H; try discriminate H;
        destruct H as [_ [st [Hst _]]]; discriminate Hst.
  - split; intros H; [discriminate H|destruct H as [H _]; discriminate H].
Qed.

(** [_should_show_ai_button] shows the AI button exactly when the bot's
    single row has AI enabled, agent type 'openai' and a non-empty agent id:
    an enabled 'chatforyou' or 'protalk' agent never gets the button. *)
Theorem should_show_ai_button_iff : forall up db bid,
  should_show_ai_button up db bid = true <->
  up = true /\ exists bot, select_bot bid db = [bot] /\
    ai_assistant_enabled (ai bot) = true /\
    opt_str_eqb (ai_assistant_type (ai bot)) "openai" = true /\
    truthy_str (openai_agent_id (ai bot)) = true.
Proof.
  intros up db bid. unfold should_show_ai_button, get_ai_config.
  destruct up; simpl;
    [|split; [discriminate|intros [H _]; discriminate H]].
  destruct (select_bot bid db) as [|bot [|b2 rest]]; simpl.
  - split; [discriminate|intros [_ [x [H _]]]; discriminate H].
  - destruct (ai_assistant_enabled (ai bot)) eqn:En; simpl.
    + destruct (opt_str_eqb (ai_assistant_type (ai bot)) "openai") eqn:Op; simpl.
      * destruct (truthy_str (openai_agent_id (ai bot))) eqn:Ag; simpl.
        -- rewrite Ag. split; [intros _; split; [reflexivity|exists bot; auto]|reflexivity].
        -- split; [discriminate|intros [_ [x [Hx [_ [_ H]]]]]; injection Hx as <-; congruence].
      * destruct (opt_str_eqb (ai_assistant_type (ai bot)) "chatforyou"
                  || opt_str_eqb (ai_assistant_type (ai bot)) "protalk");
          [destruct (truthy_str (external_api_token (ai bot)))|]; simpl;
          (split; [discriminate|intros [_ [x [Hx [_ [H _]]]]]; injection Hx as <-; congruence]).
    + split; [discriminate|intros [_ [x [Hx [H _]]]]; injection Hx as <-; congruence].
  - split; [discriminate|intros [_ [x [H _]]]; discriminate H].
Qed.

(** ** Reads of the AI columns *)

(** Case analysis on the AI columns of a row, down to the string tests the
    code makes. *)
Ltac ai_cases :=
  repeat (cbn in *; match goal with
    | |- context [String.eqb ?x ?s] =>
        let E := fresh "E" in destruct (String.eqb x s) eqn:E
    | |- context [match ?x with Some _ => _ | None => _ end] => is_var x; destruct x
    | |- context [if ?b then _ else _] => is_var b; destruct b
    | |- context [negb ?b] => is_var b; destruct b
    | |- context [?b && _] => is_var b; destruct b
    end); cbn in *.

(** Turns the string tests found true into equations and substitutes. *)
Ltac eqb_subst :=
  repeat match goal with
    | E : String.eqb _ _ = true |- _ => apply String.eqb_eq in E; subst
    end; cbn in *.

(** Closes the goals [ai_cases] leaves: equalities of results, one way. *)
Ltac ai_close :=
  let H := fresh in intro H; try (injection H; intros; subst); cbn in *; congruence.

(** [get_openai_agent_info] and [get_ai_config] agree on enabled OpenAI
    agents; for a disabled agent [get_openai_agent_info] still answers (with
    ['enabled'] false) while [get_ai_config] returns [None]. *)
Theorem openai_agent_info_matches_ai_config : forall up db bid aid,
  (get_ai_config up db bid = Ret (Some ("openai", aid)) <->
   get_openai_agent_info up db bid = Ret (Some (aid, true))) /\
  (get_openai_agent_info up db bid = Ret (Some (aid, false)) ->
   get_ai_config up db bid = Ret None).
Proof.
  intros up db bid aid. unfold get_ai_config, get_openai_agent_info.
  destruct up; simpl; [|split; [split|]; intro H; discriminate H].
  destruct (select_bot bid db) as [|bot [|b2 rest]]; simpl;
    [split; [split|]; intro H; try discriminate H; reflexivity| |
     split; [split|]; intro H; discriminate H].
  unfold is_external_type, truthy_str, opt_str_eqb.
  destruct (ai bot) as [en ty ag nm ins md tk eb pl]. simpl.
  ai_cases; repeat split; ai_close.
Qed.

(** [diagnose_ai_config] reports the status ['configured'] exactly when its
    own call of [get_ai_config] succeeded with a config. *)
Theorem diagnose_agrees_with_get_ai_config : forall up db bid status cr,
  diagnose_ai_config up db bid = Ret (status, Some cr) ->
  (status = "configured" <-> cr = "success").
Proof.
  intros up db bid status cr.
  unfold diagnose_ai_config, get_ai_config, diagnose_status, is_external_type,
    truthy_str, opt_str_eqb.
  destruct up; cbn; [|discriminate].
  destruct (select_bot bid db) as [|bot [|b2 rest]]; cbn; try discriminate.
  destruct (ai bot) as [en ty ag nm ins md tk eb pl].
  ai_cases; let H := fresh in
    intro H; injection H; intros; subst; eqb_subst; split; intro; congruence.
Qed.

(** ** The worker lifecycle *)

(** [UserBot.stop] either releases the instance (not running, no task, no
    bot, no dispatcher, [error_count] kept, the bot session closed exactly
    when there was a bot) or re-raises the exception a finished polling task
    ended with, other than a cancellation; it then skips [_cleanup]: the
    instance is only marked not running and keeps its bot (the session left
    open), dispatcher and task. *)
Theorem stop_outcome : forall s,
  match stop s with
  | (s', Ret _, evs) =>
      rt_is_running s' = false /\ rt_polling_task s' = None /\ rt_bot s' = false /\
      rt_dp s' = false /\ rt_error_count s' = rt_error_count s /\
      (In EvSessionClose evs <-> rt_bot s = true)
  | (s', Raise e, evs) =>
      e <> CancelledError /\ evs = [EvCancel] /\
      rt_polling_task s = Some (TaskDone (Raise e)) /\ s' = rt_set_running s false
  end.
Proof.
  intros [bid un b d t r n]. unfold stop, cleanup, rt_set_running. simpl.
  destruct t as [[|[[]|[]]]|]; destruct b; simpl;
    repeat split; try discriminate; intuition discriminate.
Qed.

Lemma polling_loop_bounds : forall up outs n s db,
  let '(s', r, evs) := polling_loop up outs n s db in
  (List.length (filter (fun e => match e with EvPollAttempt => true | _ => false end) evs)
     <= 5 - n)%nat /\
  (forall d, In (EvSleep d) evs -> 5 * Z.of_nat (S n) <= d <= 20) /\
  (In (EvStatusWrite "error" false) evs ->
     firstn (5 - n) outs = repeat PollFails (5 - n) /\ rt_is_running s' = false).
Proof.
  induction outs as [|o outs IH]; intros n s db; cbn [polling_loop].
  - destruct (rt_is_running s && Nat.ltb n max_retries) eqn:E; cbn -[Nat.sub Z.of_nat Z.mul Z.min Nat.ltb max_retries].
    + apply andb_true_iff in E as [_ E]. apply Nat.ltb_lt in E. unfold max_retries in E.
      split; [lia|]. split; intros; [intuition discriminate|intuition discriminate].
    + split; [lia|]. split; intros; contradiction.
  - destruct (rt_is_running s && Nat.ltb n max_retries) eqn:E; cbn -[Nat.sub Z.of_nat Z.mul Z.min Nat.ltb max_retries];
      [|split; [lia|]; split; intros; contradiction].
    apply andb_true_iff in E as [_ E]. apply Nat.ltb_lt in E. unfold max_retries in E.
    destruct o; cbn -[Nat.sub Z.of_nat Z.mul Z.min Nat.ltb max_retries];
      try (split; [lia|]; split; intros; intuition discriminate).
    destruct (Nat.ltb (S n) max_retries) eqn:E2.
    + apply Nat.ltb_lt in E2. unfold max_retries in E2.
      specialize (IH (S n) (rt_incr_errors s) db).
      destruct (polling_loop up outs (S n) (rt_incr_errors s) db) as [[s2 r] evs].
      destruct IH as [IH1 [IH2 IH3]]. cbn -[Nat.sub Z.of_nat Z.mul Z.min Nat.ltb max_retries].
      split; [lia|]. split.
      * intros d [Hd|[Hd|Hd]]; [discriminate Hd| |].
        -- injection Hd as <-. rewrite Z.min_l by lia. lia.
        -- specialize (IH2 d Hd). lia.
      * intros [Hd|[Hd|Hd]]; try discriminate Hd.
        destruct (IH3 Hd) as [Hf Hr]. split; [|exact Hr].
        replace (5 - n)%nat with (S (5 - S n)) by lia. cbn -[Nat.sub Z.of_nat Z.mul Z.min Nat.ltb max_retries]. rewrite Hf. reflexivity.
    + apply Nat.ltb_ge in E2. unfold max_retries in E2.
      assert (n = 4)%nat by lia. subst n.
      destruct (update_bot_status up (rt_bot_id s) "error" (Some false) db); cbn -[Nat.sub Z.of_nat Z.mul Z.min Nat.ltb max_retries];
        (split; [lia|]; split;
         [intros d Hd; intuition discriminate
         |intros _; split; reflexivity]).
Qed.

(** Whatever [start_polling] answers, one [_start_polling] run makes at most
    5 polling attempts, every backoff sleep is between 5 and 20 seconds (the
    30-second cap of [min(retry_count * 5, 30)] is never reached), and the
    ['error'] status is written only after the first 5 attempts all failed,
    leaving the instance not running. *)
Theorem polling_attempts_bounded : forall up outs s db,
  let '(s', r, evs) := start_polling up outs s db in
  (List.length (filter (fun e => match e with EvPollAttempt => true | _ => false end) evs)
     <= 5)%nat /\
  (forall d, In (EvSleep d) evs -> 5 <= d <= 20) /\
  (In (EvStatusWrite "error" false) evs ->
     firstn 5 outs = [PollFails; PollFails; PollFails; PollFails; PollFails] /\
     rt_is_running s' = false).
Proof.
  intros up outs s db. unfold start_polling.
  pose proof (polling_loop_bounds up outs 0 s db) as H.
  destruct (polling_loop up outs 0 s db) as [[s' r] evs]. simpl in H.
  destruct H as [H1 [H2 H3]]. split; [exact H1|]. split; [exact H2|exact H3].
Qed.

(** ** Quota limit writes *)

Lemma select_user_update_limit : forall uid v db,
  select_user uid (update_user_limit uid v db) =
  map (fun u => mkUser (user_id u) (user_tokens_used_total u) (Some v)) (select_user uid db).
Proof.
  intros uid v db. unfold select_user, update_user_limit. simpl.
  induction (users db) as [|u l IH]; simpl; [reflexivity|].
  destruct (user_id u =? uid) eqn:E; simpl; rewrite ?E, IH; reflexivity.
Qed.

Lemma update_user_limit_absent : forall uid v db,
  select_user uid db = [] -> update_user_limit uid v db = db.
Proof.
  intros uid v [us bs]. unfold select_user, update_user_limit. simpl. intros H.
  f_equal. induction us as [|u l IH]; simpl in *; [reflexivity|].
  destruct (user_id u =? uid) eqn:E; [discriminate H|]. rewrite IH by exact H.
  reflexivity.
Qed.

Lemma int_or_limit : forall n,
  int_or (Some n) 500000 = if n =? 0 then 500000 else n.
Proof. intros n. unfold int_or, truthy_int. destruct (n =? 0); reflexivity. Qed.

(** [update_user_tokens_limit] never raises. It reports success exactly
    when the database is reachable and the user row exists; a failure
    leaves the store as it was. After a success, [check_token_limit] sees
    the same [total_used] and the new limit (500000 when the new limit
    is 0). *)
Theorem update_user_tokens_limit_effect : forall up db uid new_limit,
  exists ok db', update_user_tokens_limit up db uid new_limit = Ret (ok, db') /\
  (ok = true <-> up = true /\ select_user uid db <> []) /\
  (ok = false -> db' = db) /\
  (ok = true ->
   db' = update_user_limit uid new_limit db /\
   exists used lim0,
     check_token_limit up db uid = Ret (used <? lim0, used, lim0) /\
     check_token_limit up db' uid =
       Ret (used <? (if new_limit =? 0 then 500000 else new_limit), used,
            if new_limit =? 0 then 500000 else new_limit)).
Proof.
  intros up db uid new_limit.
  unfold update_user_tokens_limit, update_user_tokens_limit_session.
  destruct up; simpl.
  - destruct (select_user uid db) as [|data rest] eqn:Hs; simpl.
    + exists false, (update_user_limit uid new_limit db). split; [reflexivity|].
      split; [split; [discriminate|intros [_ H]; contradiction]|].
      split; [intros _; apply update_user_limit_absent, Hs|discriminate].
    + eexists true, _. split; [reflexivity|].
      split; [split; [intros _; split; [reflexivity|discriminate]|reflexivity]|].
      split; [discriminate|]. intros _. split; [reflexivity|].
      rewrite !check_token_limit_eq, select_user_update_limit, Hs.
      exists (int_or (user_tokens_used_total data) 0),
             (int_or (tokens_limit_total data) 500000).
      split; [reflexivity|]. cbn [map]. cbn [user_tokens_used_total tokens_limit_total].
      rewrite int_or_limit. reflexivity.
  - exists false, db. split; [reflexivity|].
    split; [split; [discriminate|intros [H _]; discriminate H]|].
    split; [reflexivity|discriminate].
Qed.

(** ** Clearing the AI configuration *)

Lemma bot_id_clear_ai_row : forall b, bot_id (clear_ai_row b) = bot_id b.
Proof. reflexivity. Qed.

Lemma metered_openai_cleared : forall owner b, metered_openai owner (clear_ai_row b) = false.
Proof. intros owner b. unfold metered_openai. simpl. apply andb_false_r. Qed.

(** [clear_ai_configuration] (and its alias [delete_openai_agent]) never
    raises and reports success exactly when the database is reachable; a
    failure leaves the store as it was. After a success the bot's rows are
    cleared, so [get_ai_config] finds no configuration for it, while the
    token counters of those rows keep their values. *)
Theorem clear_ai_configuration_effect : forall up db bid,
  exists ok db', clear_ai_configuration up db bid = Ret (ok, db') /\
  delete_openai_agent up db bid = Ret (ok, db') /\
  (ok = true <-> up = true) /\
  (ok = false -> db' = db) /\
  (ok = true ->
   db' = update_bots bid clear_ai_row db /\
   (forall c, get_ai_config up db' bid <> Ret (Some c)) /\
   map (fun b => (tokens_used_input (tok b), tokens_used_output (tok b),
                  tokens_used_total (tok b))) (select_bot bid db') =
   map (fun b => (tokens_used_input (tok b), tokens_used_output (tok b),
                  tokens_used_total (tok b))) (select_bot bid db)).
Proof.
  intros up db bid.
  unfold delete_openai_agent, clear_ai_configuration, clear_ai_configuration_session.
  destruct up; simpl.
  - eexists true, _. split; [reflexivity|]. split; [reflexivity|].
    split; [split; reflexivity|]. split; [discriminate|]. intros _.
    split; [reflexivity|].
    rewrite select_bot_update by exact bot_id_clear_ai_row. split.
    + intros c. unfold get_ai_config. simpl.
      rewrite select_bot_update by exact bot_id_clear_ai_row.
      destruct (select_bot bid db) as [|b [|b2 rest]]; simpl; discriminate.
    + rewrite map_map. reflexivity.
  - exists false, db. split; [reflexivity|]. split; [reflexivity|].
    split; [split; discriminate|]. split; [reflexivity|discriminate].
Qed.

(** After a successful [clear_ai_configuration] the owner-total query of
    [save_token_usage] no longer counts the cleared bot: the owner's metered
    sum is the one of the store without that bot's rows, although its
    counters were kept. *)
Theorem clear_ai_drops_bot_from_owner_sum : forall up db bid owner db',
  clear_ai_configuration up db bid = Ret (true, db') ->
  metered_sum owner db' = metered_sum owner (delete_rows bid db).
Proof.
  intros up db bid owner db' H.
  unfold clear_ai_configuration, clear_ai_configuration_session in H.
  destruct up; simpl in H; [|discriminate H].
  injection H as <-. unfold metered_sum, update_bots, delete_rows. simpl.
  induction (user_bots db) as [|b l IH]; simpl; [reflexivity|].
  destruct (String.eqb (bot_id b) bid); simpl.
  - rewrite metered_openai_cleared. exact IH.
  - destruct (metered_openai owner b); simpl; rewrite IH; reflexivity.
Qed.

(** ** Repairing the enabled flag *)

Lemma select_bot_set_enabled : forall bid v db,
  select_bot bid (update_bots bid (set_enabled v) db) = map (set_enabled v) (select_bot bid db).
Proof. intros bid v db. apply select_bot_update. reflexivity. Qed.

(** What [sync_agent_data_fields] does to the one row of a bot: an 'openai'
    row gets [ai_assistant_enabled] = [bool(openai_agent_id)], any other row
    keeps its flag. *)
Lemma sync_agent_data_fields_one_row : forall db bid b,
  select_bot bid db = [b] ->
  exists db', sync_agent_data_fields true db bid = Ret (true, db') /\
  select_bot bid db' =
    [set_enabled (if opt_str_eqb (ai_assistant_type (ai b)) "openai"
                  then truthy_str (openai_agent_id (ai b))
                  else ai_assistant_enabled (ai b)) b].
Proof.
  intros db bid b Hs.
  unfold sync_agent_data_fields, sync_agent_data_fields_body,
    validate_agent_data_consistency, execute.
  rewrite Hs. cbn [py_bind scalar_one_or_none].
  destruct (agent_issues (ai b)) as [|i is] eqn:Hi.
  - exists db. split; [reflexivity|]. rewrite Hs. f_equal. revert Hi.
    destruct b as [id uid st run sub a t]; destruct a as [en ty ag nm ins md tk eb pl].
    unfold agent_issues, set_enabled, set_ai, is_external_type, truthy_str, opt_str_eqb.
    ai_cases; intro H; eqb_subst; first [reflexivity | discriminate H | congruence].
  - cbv beta iota. rewrite <- Hi.
    destruct (existsb (agent_issue_eqb OpenaiAgentExistsButDisabled) (agent_issues (ai b)))
      eqn:E1;
    destruct (existsb (agent_issue_eqb OpenaiEnabledButNoAgentId) (agent_issues (ai b)))
      eqn:E2; cbn [py_bind];
    (eexists; split; [reflexivity|]); rewrite ?select_bot_set_enabled, Hs; cbn [map];
    f_equal; f_equal; revert E1 E2 Hi;
    destruct b as [id uid st run sub a t]; destruct a as [en ty ag nm ins md tk eb pl];
    unfold agent_issues, set_enabled, set_ai, is_external_type, truthy_str, opt_str_eqb;
    ai_cases; intros; eqb_subst; first [reflexivity | discriminate | congruence].
Qed.

Lemma agent_issues_after_sync : forall b,
  agent_issues (ai (set_enabled (if opt_str_eqb (ai_assistant_type (ai b)) "openai"
                                 then truthy_str (openai_agent_id (ai b))
                                 else ai_assistant_enabled (ai b)) b)) =
  filter (agent_issue_eqb ExternalEnabledButNoToken) (agent_issues (ai b)).
Proof.
  destruct b as [id uid st run sub a t]; destruct a as [en ty ag nm ins md tk eb pl].
  unfold agent_issues, set_enabled, set_ai, is_external_type, truthy_str, opt_str_eqb.
  ai_cases; eqb_subst; first [reflexivity | congruence].
Qed.

(** [sync_agent_data_fields] never raises and succeeds exactly when the
    database is reachable and the bot has exactly one row; a failure leaves
    the store as it was. On success an 'openai' row gets
    [ai_assistant_enabled = bool(openai_agent_id)], so a disabled agent with
    an id is switched back on, and a new validation finds only the
    external-token issue, if the row had it. *)
Theorem sync_agent_data_fields_repairs : forall up db bid,
  exists ok db', sync_agent_data_fields up db bid = Ret (ok, db') /\
  (ok = true <-> up = true /\ List.length (select_bot bid db) = 1%nat) /\
  (ok = false -> db' = db) /\
  (forall b, ok = true -> select_bot bid db = [b] ->
   select_bot bid db' =
     [set_enabled (if opt_str_eqb (ai_assistant_type (ai b)) "openai"
                   then truthy_str (openai_agent_id (ai b))
                   else ai_assistant_enabled (ai b)) b] /\
   validate_agent_data_consistency up db' bid =
     Ret (Some (filter (agent_issue_eqb ExternalEnabledButNoToken) (agent_issues (ai b))))).
Proof.
  intros up db bid. destruct up.
  - destruct (select_bot bid db) as [|b [|b2 rest]] eqn:Hs.
    + exists false, db.
      unfold sync_agent_data_fields, sync_agent_data_fields_body, execute.
      cbn [py_bind]. rewrite Hs.
      split; [reflexivity|]. split; [split; [discriminate|intros [_ H]; discriminate H]|].
      split; [reflexivity|discriminate].
    + destruct (sync_agent_data_fields_one_row db bid b Hs) as [db' [Hsync Hsel]].
      exists true, db'. split; [exact Hsync|].
      split; [split; [intros _; split; reflexivity|reflexivity]|].
      split; [discriminate|]. intros b0 _ Hb. injection Hb as <-.
      split; [exact Hsel|].
      unfold validate_agent_data_consistency, execute. cbn [py_bind]. rewrite Hsel.
      cbn [py_bind scalar_one_or_none]. rewrite agent_issues_after_sync. reflexivity.
    + exists false, db.
      unfold sync_agent_data_fields, sync_agent_data_fields_body, execute.
      cbn [py_bind]. rewrite Hs.
      split; [reflexivity|]. split; [split; [discriminate|intros [_ H]; discriminate H]|].
      split; [reflexivity|discriminate].
  - exists false, db. split; [reflexivity|].
    split; [split; [discriminate|intros [H _]; discriminate H]|].
    split; [reflexivity|discriminate].
Qed.

(** The owner's AI toggle ([handle_toggle_ai_status] calls
    [update_ai_assistant(bot_id, enabled=False)]) does not stick for an
    'openai' bot with an agent id: the next [sync_agent_data_fields] (the
    "sync" button) turns the agent back on. *)
Theorem toggle_off_then_sync_reenables : forall db bid b db1,
  select_bot bid db = [b] ->
  opt_str_eqb (ai_assistant_type (ai b)) "openai" = true ->
  truthy_str (openai_agent_id (ai b)) = true ->
  update_ai_assistant true db bid false None None = Ret (true, db1) ->
  exists db2, sync_agent_data_fields true db1 bid = Ret (true, db2) /\
    map (fun b => ai_assistant_enabled (ai b)) (select_bot bid db1) = [false] /\
    map (fun b => ai_assistant_enabled (ai b)) (select_bot bid db2) = [true].
Proof.
  intros db bid b db1 Hs Hty Hag H.
  assert (Hdb1 : db1 = update_bots bid (set_enabled false) db).
  { unfold update_ai_assistant, update_ai_assistant_session in H. simpl in H.
    injection H as <-. reflexivity. }
  subst db1.
  assert (Hs1 : select_bot bid (update_bots bid (set_enabled false) db) = [set_enabled false b])
    by (rewrite select_bot_set_enabled, Hs; reflexivity).
  rewrite Hs1.
  destruct (sync_agent_data_fields_one_row _ bid _ Hs1) as [db2 [Hsync Hsel]].
  exists db2. split; [exact Hsync|]. split; [reflexivity|].
  rewrite Hsel. simpl. simpl in Hty, Hag. rewrite Hty, Hag. reflexivity.
Qed.

Lemma toggle_off_then_sync_reenables_witness :
  exists db1 db2, update_ai_assistant true db_950 "w1" false None None = Ret (true, db1) /\
    sync_agent_data_fields true db1 "w1" = Ret (true, db2) /\
    map (fun b => ai_assistant_enabled (ai b)) (select_bot "w1" db2) = [true].
Proof.
  pose (db1 := match update_ai_assistant true db_950 "w1" false None None with
               | Ret (_, d) => d | Raise _ => db_950 end).
  assert (H1 : update_ai_assistant true db_950 "w1" false None None = Ret (true, db1))
    by reflexivity.
  destruct (toggle_off_then_sync_reenables db_950 "w1"
              (mkBot "w1" 7 "active" true None (ai_openai true (Some "asst_7")) (tok_total 950))
              db1 eq_refl eq_refl eq_refl H1) as [db2 [H2 [_ H3]]].
  exists db1, db2. split; [exact H1|]. split; [exact H2|exact H3].
Defined.

Lemma clear_ai_drops_bot_from_owner_sum_witness :
  exists db', clear_ai_configuration true db_two_openai "B" = Ret (true, db') /\
    metered_sum 1 db' = metered_sum 1 (delete_rows "B" db_two_openai).
Proof.
  eexists. split; [reflexivity|].
  apply (clear_ai_drops_bot_from_owner_sum true db_two_openai "B" 1). reflexivity.
Defined.

Lemma openai_quota_check_agrees_witness :
  get_ai_config true db_950 "w1" = Ret (Some ("openai", Some "asst_7")) /\
  exists used lim, check_token_limit true db_950 7 =
    Ret (fst (check_openai_token_limit true true db_950 "w1" 7), used, lim).
Proof.
  split; [reflexivity|].
  apply (openai_quota_check_agrees true true db_950 "w1" 7 (Some "asst_7")). reflexivity.
Defined.

Lemma diagnose_agrees_with_get_ai_config_witness :
  diagnose_ai_config true db_950 "w1" = Ret ("configured", Some "success") /\
  ("configured" = "configured" <-> "success" = "success").
Proof.
  split; [reflexivity|].
  apply (diagnose_agrees_with_get_ai_config true db_950 "w1"). reflexivity.
Defined.

(** ** Users and subscription settings *)

Lemma user_id_init_apply : forall u ud,
  user_id (init_tokens (apply_user_data u ud)) = user_id u.
Proof.
  intros u ud. unfold init_tokens.
  destruct (negb (truthy_int (tokens_limit_total (apply_user_data u ud)))); reflexivity.
Qed.

Lemma init_tokens_limit_truthy : forall u,
  truthy_int (tokens_limit_total (init_tokens u)) = true.
Proof.
  intros u. unfold init_tokens.
  destruct (truthy_int (tokens_limit_total u)) eqn:E; simpl; [exact E|reflexivity].
Qed.

(** [create_or_update_user_with_tokens] always leaves the user row it
    returns with a truthy [tokens_limit_total], as the one row of that id.
    A new user starts at 500000 / 0, whatever token values [user_data]
    carries; an existing user with a truthy limit and no token keys in
    [user_data] keeps its token columns. *)
Theorem create_or_update_user_tokens_initialised : forall up db ud u db',
  create_or_update_user_with_tokens up db ud = Ret (u, db') ->
  truthy_int (tokens_limit_total u) = true /\ user_id u = ud_id ud /\
  select_user (ud_id ud) db' = [u] /\
  (select_user (ud_id ud) db = [] -> u = mkUser (ud_id ud) (Some 0) (Some 500000)) /\
  (forall x, select_user (ud_id ud) db = [x] ->
   ud_tokens_used_total ud = None -> ud_tokens_limit_total ud = None ->
   truthy_int (tokens_limit_total x) = true -> u = x).
Proof.
  intros up db ud u db' H.
  unfold create_or_update_user_with_tokens in H.
  destruct up; simpl in H; [|discriminate H].
  destruct (select_user (ud_id ud) db) as [|x [|y rest]] eqn:Hs; simpl in H;
    try discriminate H.
  - injection H as <- <-. split; [reflexivity|]. split; [reflexivity|].
    split.
    + unfold select_user in *. simpl. rewrite filter_app, Hs. simpl.
      rewrite Z.eqb_refl. reflexivity.
    + split; [reflexivity|]. intros x Hx. discriminate Hx.
  - injection H as <- <-.
    assert (Hx : user_id x = ud_id ud).
    { assert (Hin : In x (select_user (ud_id ud) db)) by (rewrite Hs; left; reflexivity).
      unfold select_user in Hin. apply filter_In in Hin as [_ Hin].
      apply Z.eqb_eq, Hin. }
    split; [apply init_tokens_limit_truthy|].
    split; [rewrite user_id_init_apply; exact Hx|].
    split.
    + unfold select_user in *. simpl.
      rewrite filter_map_comm.
      * rewrite Hs. simpl. rewrite Hx, Z.eqb_refl. reflexivity.
      * intros u. cbv beta. destruct (user_id u =? ud_id ud) eqn:E; [|exact E].
        rewrite user_id_init_apply. exact E.
    + split; [intros Hx'; discriminate Hx'|].
      intros x0 Hx0 Hused Hlim Ht. injection Hx0 as <-.
      destruct x as [xid xused xlim]. unfold apply_user_data, init_tokens.
      simpl in *. rewrite Hused, Hlim, Ht. reflexivity.
Qed.

Lemma create_or_update_user_tokens_initialised_witness :
  exists u db',
    create_or_update_user_with_tokens true db_limit_0 (mkUserData 3 None None) = Ret (u, db') /\
    truthy_int (tokens_limit_total u) = true /\ user_id u = 3 /\ select_user 3 db' = [u].
Proof.
  pose (r := create_or_update_user_with_tokens true db_limit_0 (mkUserData 3 None None)).
  pose (u := match r with Ret (u, _) => u | Raise _ => mkUser 0 None None end).
  pose (db' := match r with Ret (_, d) => d | Raise _ => db_limit_0 end).
  assert (H : create_or_update_user_with_tokens true db_limit_0 (mkUserData 3 None None)
              = Ret (u, db')) by reflexivity.
  destruct (create_or_update_user_tokens_initialised _ _ _ _ _ H) as [H1 [H2 [H3 _]]].
  exists u, db'. split; [exact H|]. split; [exact H1|]. split; [exact H2|exact H3].
Defined.

Lemma write_if_not_none_keeps : forall {A} (v old : option A),
  old <> None -> write_if_not_none v old <> None.
Proof. intros A [x|] old H; simpl; [discriminate|exact H]. Qed.

(** [update_subscription_settings] reports success exactly when the
    database is reachable and at most one row has the bot id, so an update
    of a bot without a row reports success. It only touches the rows of
    [bot_id] and never sets a column that holds a value back to NULL: a
    [None] argument or [settings] value leaves the column as it is. *)
Theorem update_subscription_settings_effect :
  forall up rows bid enabled channel_id channel_username deny_message settings,
  let '(ok, rows') := update_subscription_settings up rows bid enabled channel_id
                        channel_username deny_message settings in
  (ok = true <-> up = true /\
     (List.length (filter (fun r => String.eqb (fst r) bid) rows) <= 1)%nat) /\
  (up = false -> rows' = rows) /\
  List.length rows' = List.length rows /\
  forall i r r', nth_error rows i = Some r -> nth_error rows' i = Some r' ->
    fst r' = fst r /\ (fst r <> bid -> r' = r) /\
    (sc_enabled (snd r) <> None -> sc_enabled (snd r') <> None) /\
    (sc_channel_id (snd r) <> None -> sc_channel_id (snd r') <> None) /\
    (sc_channel_username (snd r) <> None -> sc_channel_username (snd r') <> None) /\
    (sc_deny_message (snd r) <> None -> sc_deny_message (snd r') <> None).
Proof.
  intros up rows bid e c cu dm st. unfold update_subscription_settings.
  destruct up; cbn [negb].
  - set (f := subscription_update_row bid e c cu dm st).
    assert (Hfst : forall r, fst (f r) = fst r).
    { intros [k v]. unfold f, subscription_update_row. simpl.
      destruct (String.eqb k bid); reflexivity. }
    assert (Hrow : forall i r r', nth_error rows i = Some r ->
                     nth_error (map f rows) i = Some r' ->
      fst r' = fst r /\ (fst r <> bid -> r' = r) /\
      (sc_enabled (snd r) <> None -> sc_enabled (snd r') <> None) /\
      (sc_channel_id (snd r) <> None -> sc_channel_id (snd r') <> None) /\
      (sc_channel_username (snd r) <> None -> sc_channel_username (snd r') <> None) /\
      (sc_deny_message (snd r) <> None -> sc_deny_message (snd r') <> None)).
    { intros i r r' H1 H2. rewrite nth_error_map, H1 in H2. injection H2 as <-.
      destruct r as [k v]. unfold f, subscription_update_row. simpl.
      destruct (String.eqb_spec k bid) as [->|Hne]; simpl.
      - split; [reflexivity|]. split; [intros Hc; contradiction|].
        unfold subscription_update_values.
        destruct (match st with
                  | Some st0 => _ | None => _ end) as [[[ev cv] uv] dv].
        simpl. repeat split; apply write_if_not_none_keeps.
      - repeat split; auto. }
    rewrite (filter_map_comm _ f rows)
      by (intros x; cbv beta; rewrite Hfst; reflexivity).
    destruct (filter (fun r => String.eqb (fst r) bid) rows) as [|r0 [|r1 rest]];
      simpl; (split; [|split; [discriminate|split; [apply List.length_map|exact Hrow]]]).
    + split; [intros _; split; [reflexivity|simpl; lia]|reflexivity].
    + split; [intros _; split; [reflexivity|simpl; lia]|reflexivity].
    + split; [discriminate|intros [_ Hl]; simpl in Hl; lia].
  - split; [split; [discriminate|intros [H _]; discriminate H]|].
    split; [reflexivity|]. split; [reflexivity|].
    intros i r r' H1 H2. rewrite H1 in H2. injection H2 as <-. repeat split; auto.
Qed.

(** ** The token format check *)

Lemma append_empty_inv : forall s1 s2 : string, (s1 ++ s2)%string = EmptyString ->
  s1 = EmptyString /\ s2 = EmptyString.
Proof. intros [|c s1] s2 H; [split; [reflexivity|exact H]|discriminate H]. Qed.

(** [[A-Za-z0-9_-]+$] read off [match_token_tail]: class characters, then
    nothing or one final newline; [seen] stands for the characters already
    matched. *)
Lemma match_token_tail_spec : forall s seen,
  match_token_tail s seen = true <->
  exists t nl, forallb is_token_char (list_ascii_of_string t) = true /\
    (nl = EmptyString \/ nl = String newline EmptyString) /\ s = (t ++ nl)%string /\
    (seen = true \/ t <> EmptyString).
Proof.
  induction s as [|c rest IH]; intros seen.
  - simpl. split.
    + intros ->. exists EmptyString, EmptyString. repeat split; auto.
    + intros [t [nl [_ [Hnl [Hs Hseen]]]]].
      symmetry in Hs. apply append_empty_inv in Hs as [-> ->].
      destruct Hseen as [-> | H]; [reflexivity|contradiction].
  - destruct rest as [|c2 r2].
    + simpl. split.
      * intros H. apply orb_true_iff in H as [H|H].
        -- exists (String c EmptyString), EmptyString. simpl. rewrite H.
           repeat split; auto. right. discriminate.
        -- apply andb_true_iff in H as [-> H]. apply Ascii.eqb_eq in H as ->.
           exists EmptyString, (String newline EmptyString).
           repeat split; auto.
      * intros [t [nl [Ht [Hnl [Hs Hseen]]]]].
        destruct t as [|c' t']; simpl in Hs.
        -- destruct Hnl as [-> | ->]; [discriminate Hs|].
           injection Hs as ->. destruct Hseen as [-> | H]; [reflexivity|contradiction].
        -- injection Hs as -> Hs. symmetry in Hs. apply append_empty_inv in Hs as [-> _].
           simpl in Ht. rewrite andb_true_r in Ht. rewrite Ht. reflexivity.
    + change (match_token_tail (String c (String c2 r2)) seen)
        with (is_token_char c && match_token_tail (String c2 r2) true).
      split.
      * intros H. apply andb_true_iff in H as [Hc H]. apply IH in H.
        destruct H as [t [nl [Ht [Hnl [Hs _]]]]].
        exists (String c t), nl. simpl. rewrite Hc, Ht, Hs.
        repeat split; auto. right. discriminate.
      * intros [t [nl [Ht [Hnl [Hs Hseen]]]]].
        destruct t as [|c' t']; simpl in Hs.
        -- destruct Hnl as [-> | ->]; [discriminate Hs|].
           injection Hs as _ Hs. discriminate Hs.
        -- injection Hs as -> Hs. simpl in Ht. apply andb_true_iff in Ht as [Hc Ht].
           rewrite Hc, andb_true_l. apply IH. exists t', nl. repeat split; auto.
Qed.

(** [^\d+:] read off [match_token_digits]. *)
Lemma match_token_digits_spec : forall s seen,
  match_token_digits s seen = true <->
  exists d r, forallb is_digit (list_ascii_of_string d) = true /\
    (seen = true \/ d <> EmptyString) /\ s = (d ++ String ":" r)%string /\
    match_token_tail r false = true.
Proof.
  induction s as [|c rest IH]; intros seen.
  - simpl. split; [discriminate|].
    intros [d [r [_ [_ [Hs _]]]]]. destruct d; discriminate Hs.
  - simpl. destruct (is_digit c) eqn:Hc.
    + split.
      * intros H. apply IH in H. destruct H as [d [r [Hd [_ [Hs Hr]]]]].
        exists (String c d), r. simpl. rewrite Hc, Hd, Hs.
        repeat split; auto. right. discriminate.
      * intros [d [r [Hd [Hseen [Hs Hr]]]]].
        destruct d as [|c' d']; simpl in Hs.
        -- injection Hs as -> _. discriminate Hc.
        -- injection Hs as -> Hs. simpl in Hd. apply andb_true_iff in Hd as [_ Hd].
           apply IH. exists d', r. repeat split; auto.
    + split.
      * intros H. apply andb_true_iff in H as [H Hr].
        apply andb_true_iff in H as [Hseen Hcolon]. apply Ascii.eqb_eq in Hcolon as ->.
        exists EmptyString, rest. repeat split; auto.
      * intros [d [r [Hd [Hseen [Hs Hr]]]]].
        destruct d as [|c' d']; simpl in Hs.
        -- injection Hs as -> ->. destruct Hseen as [-> | H]; [|contradiction].
           rewrite Hr. reflexivity.
        -- injection Hs as -> _. simpl in Hd. rewrite Hc in Hd. discriminate Hd.
Qed.

(** [MasterBot._validate_token] accepts exactly one or more digits, a
    colon, one or more of [A-Za-z0-9_-], and optionally one final newline
    (Python's [$] matches before a trailing newline). *)
Theorem validate_token_iff : forall token,
  validate_token token = true <->
  exists d t nl, d <> EmptyString /\ forallb is_digit (list_ascii_of_string d) = true /\
    t <> EmptyString /\ forallb is_token_char (list_ascii_of_string t) = true /\
    (nl = EmptyString \/ nl = String newline EmptyString) /\
    token = (d ++ String ":" (t ++ nl))%string.
Proof.
  intros token. unfold validate_token. rewrite match_token_digits_spec. split.
  - intros [d [r [Hd [Hne [Hs Hr]]]]]. apply match_token_tail_spec in Hr.
    destruct Hr as [t [nl [Ht [Hnl [Hr Htne]]]]].
    destruct Hne as [H|Hne]; [discriminate H|].
    destruct Htne as [H|Htne]; [discriminate H|].
    exists d, t, nl. subst. repeat split; auto.
  - intros [d [t [nl [Hdne [Hd [Htne [Ht [Hnl Hs]]]]]]]].
    exists d, (t ++ nl)%string. repeat split; auto.
    apply match_token_tail_spec. exists t, nl. repeat split; auto.
Qed.

(** ** Message templates *)

Lemma list_ascii_of_string_app : forall s1 s2,
  list_ascii_of_string (s1 ++ s2) = (list_ascii_of_string s1 ++ list_ascii_of_string s2)%list.
Proof. induction s1 as [|c s1 IH]; intros s2; simpl; [reflexivity|rewrite IH; reflexivity]. Qed.

(** [s.replace(old, new)] leaves [s] as it is when the first character of
    [old] does not occur in [s]. *)
Lemma replace_fuel_absent : forall fuel c o new s,
  ~ In c (list_ascii_of_string s) -> replace_fuel fuel (String c o) new s = s.
Proof.
  induction fuel as [|fuel IH]; intros c o new s Hc; [reflexivity|].
  destruct s as [|a s]; [reflexivity|]. simpl.
  destruct (Ascii.eqb_spec c a) as [->|Hne].
  - exfalso. apply Hc. left. reflexivity.
  - simpl. rewrite IH; [reflexivity|]. intros H. apply Hc. right. exact H.
Qed.

Lemma str_replace_absent : forall s c o new,
  ~ In c (list_ascii_of_string s) -> str_replace s (String c o) new = s.
Proof. intros s c o new H. apply replace_fuel_absent, H. Qed.

Lemma starts_with_absent : forall c o s,
  ~ In c (list_ascii_of_string s) -> starts_with (String c o) s = false.
Proof.
  intros c o [|a s] H; [reflexivity|]. simpl.
  destruct (Ascii.eqb_spec c a) as [->|Hne]; [|reflexivity].
  exfalso. apply H. left. reflexivity.
Qed.

(** A pattern [{...] on a string that opens with its only [{]. *)
Lemma str_replace_braced : forall o new rest,
  ~ In "{"%char (list_ascii_of_string rest) -> starts_with o rest = false ->
  str_replace (String "{" rest) (String "{" o) new = String "{" rest.
Proof.
  intros o new rest Hb Hs. unfold str_replace. cbn [String.length replace_fuel].
  change (starts_with (String "{" o) (String "{" rest)) with (true && starts_with o rest).
  rewrite Hs. simpl. rewrite replace_fuel_absent by exact Hb. reflexivity.
Qed.

(** [v + '}'] is a prefix of [fn + '}'] only for [v = fn], when neither
    holds a [}]. *)
Lemma starts_with_closing : forall v fn,
  ~ In "}"%char (list_ascii_of_string v) -> ~ In "}"%char (list_ascii_of_string fn) ->
  starts_with (v ++ "}") (fn ++ "}") = true -> v = fn.
Proof.
  induction v as [|a v IH]; intros fn Hv Hfn H.
  - destruct fn as [|b fn]; [reflexivity|]. cbn [String.append starts_with] in H.
    rewrite andb_true_r in H. apply Ascii.eqb_eq in H as <-.
    exfalso. apply Hfn. left. reflexivity.
  - destruct fn as [|b fn]; cbn [String.append starts_with] in H.
    + apply andb_true_iff in H as [H _]. apply Ascii.eqb_eq in H as ->.
      exfalso. apply Hv. left. reflexivity.
    + apply andb_true_iff in H as [Hab H]. apply Ascii.eqb_eq in Hab as <-.
      f_equal. apply IH; [intros Hi; apply Hv; right; exact Hi
                         |intros Hi; apply Hfn; right; exact Hi|exact H].
Qed.

(** A later round of [_format_message] on ['{' + fn + '}'] changes nothing
    when [fn] holds none of [{], [}], [$] and is not the variable's name. *)
Lemma replace_variable_braced : forall fn v x,
  ~ In "{"%char (list_ascii_of_string fn) -> ~ In "}"%char (list_ascii_of_string fn) ->
  ~ In "$"%char (list_ascii_of_string fn) -> ~ In "}"%char (list_ascii_of_string v) ->
  v <> fn ->
  replace_variable (String "{" (fn ++ "}")) (v, x) = String "{" (fn ++ "}").
Proof.
  intros fn v x Hb Hc Hd Hv Hne.
  assert (Hb' : ~ In "{"%char (list_ascii_of_string (fn ++ "}"))).
  { rewrite list_ascii_of_string_app. intros H. apply in_app_or in H as [H|[H|[]]];
      [exact (Hb H)|discriminate H]. }
  unfold replace_variable.
  change ("{" ++ v ++ "}")%string with (String "{" (v ++ "}")).
  rewrite str_replace_braced; [|exact Hb'|].
  2: { destruct (starts_with (v ++ "}") (fn ++ "}")) eqn:E; [|reflexivity].
       exfalso. apply Hne. apply starts_with_closing; assumption. }
  change ("{{" ++ v ++ "}}")%string with (String "{" (String "{" (v ++ "}}"))).
  rewrite str_replace_braced; [|exact Hb'|apply starts_with_absent, Hb'].
  change ("$" ++ v)%string with (String "$" v).
  apply str_replace_absent. simpl. rewrite list_ascii_of_string_app.
  intros [H|H]; [discriminate H|]. apply in_app_or in H as [H|[H|[]]];
    [exact (Hd H)|discriminate H].
Qed.

(** The first round, on ["{{first_name}}"]: the [{first_name}] inside is
    replaced, leaving the outer braces. *)
Lemma replace_first_name_double : forall fn,
  ~ In "{"%char (list_ascii_of_string fn) -> ~ In "$"%char (list_ascii_of_string fn) ->
  replace_variable "{{first_name}}" ("first_name", fn) = String "{" (fn ++ "}").
Proof.
  intros fn Hb Hd.
  assert (Hb' : ~ In "{"%char (list_ascii_of_string (fn ++ "}"))).
  { rewrite list_ascii_of_string_app. intros H. apply in_app_or in H as [H|[H|[]]];
      [exact (Hb H)|discriminate H]. }
  unfold replace_variable.
  replace (str_replace "{{first_name}}" ("{" ++ "first_name" ++ "}") fn)
    with (String "{" (fn ++ "}")) by reflexivity.
  change ("{{" ++ "first_name" ++ "}}")%string
    with (String "{" (String "{" "first_name}}")).
  rewrite str_replace_braced; [|exact Hb'|apply starts_with_absent, Hb'].
  change ("$" ++ "first_name")%string with (String "$" "first_name").
  apply str_replace_absent. simpl. rewrite list_ascii_of_string_app.
  intros [H|H]; [discriminate H|]. apply in_app_or in H as [H|[H|[]]];
    [exact (Hd H)|discriminate H].
Qed.

Ltac not_in_literal :=
  let H := fresh in intro H; simpl in H;
  repeat (destruct H as [H|H]; [discriminate H|]); destruct H.

(** [_format_message] renders the documented [{{first_name}}] form as the
    first name inside single braces: the [{first_name}] replacement runs
    first and consumes the inner pair. *)
Theorem format_message_double_brace : forall uid fn ln un,
  ~ In "{"%char (list_ascii_of_string fn) -> ~ In "}"%char (list_ascii_of_string fn) ->
  ~ In "$"%char (list_ascii_of_string fn) ->
  fn <> "last_name" -> fn <> "full_name" -> fn <> "username" -> fn <> "user_id" ->
  fn <> "mention" ->
  format_message "{{first_name}}" (mkTgUser uid (Some fn) ln un) = ("{" ++ fn ++ "}")%string.
Proof.
  intros uid fn ln un Hb Hc Hd H1 H2 H3 H4 H5.
  unfold format_message, format_variables. cbn [String.eqb fold_left str_or_empty tg_first_name].
  rewrite replace_first_name_double by assumption.
  rewrite !replace_variable_braced;
    first [reflexivity | assumption | solve [congruence] | solve [not_in_literal]].
Qed.

Lemma format_message_double_brace_witness :
  format_message "{{first_name}}" (mkTgUser 42 (Some "Alice") (Some "Smith") None) = "{Alice}".
Proof.
  apply (format_message_double_brace 42 "Alice" (Some "Smith") None);
    first [solve [not_in_literal] | discriminate].
Defined.

(** A template with no [{] and no [$] is sent as it is, whoever the user. *)
Theorem format_message_plain_template : forall template user,
  (forall c, In c (list_ascii_of_string template) -> c <> "{"%char /\ c <> "$"%char) ->
  format_message template user = template.
Proof.
  intros template user H. unfold format_message.
  destruct (String.eqb_spec template "") as [->|_]; [reflexivity|].
  generalize (format_variables user). intros vars.
  induction vars as [|[k v] vars IH]; cbn [fold_left]; [reflexivity|].
  assert (Hrv : replace_variable template (k, v) = template).
  { unfold replace_variable.
    change ("{" ++ k ++ "}")%string with (String "{" (k ++ "}")).
    change ("{{" ++ k ++ "}}")%string with (String "{" (String "{" (k ++ "}}"))).
    change ("$" ++ k)%string with (String "$" k).
    assert (Hb : ~ In "{"%char (list_ascii_of_string template))
      by (intros Hi; apply H in Hi; intuition).
    assert (Hd : ~ In "$"%char (list_ascii_of_string template))
      by (intros Hi; apply H in Hi; intuition).
    rewrite (str_replace_absent template _ _ v Hb), (str_replace_absent template _ _ v Hb),
      (str_replace_absent template _ _ v Hd).
    reflexivity. }
  rewrite Hrv. exact IH.
Qed.

Lemma format_message_plain_template_witness :
  format_message "Welcome!" (mkTgUser 42 (Some "Alice") None None) = "Welcome!".
Proof.
  apply format_message_plain_template.
  intros c Hc. simpl in Hc.
  repeat (destruct Hc as [<-|Hc]; [split; discriminate|]). destruct Hc.
Defined.
